(** * Unlog: category resolution, verbosity filtering, formatting and dispatch

    A shallow embedding of [UnlogImplementation.h].  Template parameters
    become ordinary arguments, function-local statics become fields of an
    explicit process state, and calls that leave the library (condition
    callables, the renderers, the targets) are recorded in a trace so that
    statements about "no formatting" or "called once, in order" can be
    made about the code. *)

From Stdlib Require Import Ascii.
From stdpp Require Import base option list strings gmap pretty.

(** ** Host types *)

Definition FName := string.
Definition FString := string.

(** Modelled from the spec: the verbosity enumeration is declared by the
    host engine, not by this repository.  It is an ordered enumeration,
    most severe first, stored in an unsigned byte; the library only ever
    compares its values with [<=] and [!=]. *)
Module ELogVerbosity.
Definition t : Type := Z.
Definition NoLogging : t := 0%Z.
Definition Fatal : t := 1%Z.
Definition Error : t := 2%Z.
Definition Warning : t := 3%Z.
Definition Display : t := 4%Z.
Definition Log : t := 5%Z.
Definition Verbose : t := 6%Z.
Definition VeryVerbose : t := 7%Z.
End ELogVerbosity.

(** Modelled from the spec: the host's colour type, used only as a
    template argument of [TGameScreen]. *)
Module FColor.
Record t := { R : Z; G : Z; B : Z; A : Z }.
Definition Cyan : t := {| R := 0; G := 255; B := 255; A := 255 |}.
Definition Yellow : t := {| R := 255; G := 255; B := 0; A := 255 |}.
End FColor.

(** ** Categories *)

Record UnlogCategoryBase := {
  CategoryName : FName;
  Verbosity : ELogVerbosity.t
}.

Definition GetName (c : UnlogCategoryBase) : FName := CategoryName c.
Definition GetVerbosity (c : UnlogCategoryBase) : ELogVerbosity.t := Verbosity c.

(** [UNLOG_CATEGORY(CategoryName)] declares a class whose [Construct]
    builds the one instance returned by [Static()]. *)
Definition UNLOG_CATEGORY (CategoryName : string) : UnlogCategoryBase :=
  {| CategoryName := CategoryName; Verbosity := ELogVerbosity.Log |}.

Definition LogGeneral : UnlogCategoryBase := UNLOG_CATEGORY "LogGeneral".

(** ** Category pickers

    A picker is a type with a static [PickCategory(UnlogCategoryBase*&)].
    The in-out pointer is an [option]: [None] is [nullptr]. *)
Inductive Picker :=
| TSpecificCategory (TCategory : UnlogCategoryBase)
| TDeriveCategory (TDefaultCategory : UnlogCategoryBase)
| UnlogCategoryCRTP (TCategory : UnlogCategoryBase).

Definition Picker_PickCategory (P : Picker) (InOutCategory : option UnlogCategoryBase)
  : option UnlogCategoryBase :=
  match P with
  | TSpecificCategory TCategory => Some TCategory
  | TDeriveCategory TDefaultCategory =>
      match InOutCategory with
      | None => Some TDefaultCategory
      | Some c => Some c
      end
  | UnlogCategoryCRTP TCategory => Some TCategory
  end.

(** ** Targets *)

Module Target.
#[local] Set Warnings "-register-all".
Inductive t :=
| UELog
| MessageLog
| TGameScreen (TimeOnScreen : Z) (InColor : FColor.t)
| Custom (Name : string)
| TMultiTarget (TTargets : list t).

Definition GameScreen : t := TGameScreen 3 FColor.Cyan.
Definition Default : t := UELog.

(** The sinks below a target, in declaration order. *)
Fixpoint sinks (T : t) : list t :=
  match T with
  | TMultiTarget TTargets =>
      (fix go (ts : list t) : list t :=
         match ts with
         | [] => []
         | T' :: ts' => sinks T' ++ go ts'
         end) TTargets
  | _ => [T]
  end.

Definition is_sink (T : t) : bool :=
  match T with
  | TMultiTarget _ => false
  | _ => true
  end.
End Target.

(** ** Runtime settings (experimental in the source) *)

Record UnlogRuntimeSettingsBase := {
  Targets : list string;
  DefaultCategory : option UnlogCategoryBase
}.

Definition UnlogRuntimeSettingsBase_new : UnlogRuntimeSettingsBase :=
  {| Targets := []; DefaultCategory := None |}.

Definition AddTarget (TTarget : string) (s : UnlogRuntimeSettingsBase)
  : UnlogRuntimeSettingsBase :=
  {| Targets := Targets s ++ [TTarget]; DefaultCategory := DefaultCategory s |}.

Definition GetTargets (s : UnlogRuntimeSettingsBase) : list string := Targets s.

Definition SetDefaultCategory (TCategory : UnlogCategoryBase) (s : UnlogRuntimeSettingsBase)
  : UnlogRuntimeSettingsBase :=
  {| Targets := Targets s; DefaultCategory := Some TCategory |}.

Definition GetDefaultCategory (s : UnlogRuntimeSettingsBase) : UnlogCategoryBase :=
  match DefaultCategory s with
  | Some c => c
  | None => LogGeneral
  end.

(** A settings type: a struct deriving [RuntimeSettingsCRTP] with its own
    [PopulateSettings].  Its static instance is identified by the type. *)
Record SettingsType := {
  SettingsName : string;
  PopulateSettings : UnlogRuntimeSettingsBase -> UnlogRuntimeSettingsBase
}.

Definition MakeSettings (T : SettingsType) : UnlogRuntimeSettingsBase :=
  PopulateSettings T UnlogRuntimeSettingsBase_new.

Definition UnlogDefaultRuntimeSettings : SettingsType :=
  {| SettingsName := "UnlogDefaultRuntimeSettings";
     PopulateSettings := SetDefaultCategory LogGeneral |}.

(** ** The logger object *)

Record Unlogger := {
  Settings : option string;
  PushedCategories : list UnlogCategoryBase
}.

Definition PushCategory (Category : UnlogCategoryBase) (L : Unlogger) : Unlogger :=
  {| Settings := Settings L; PushedCategories := PushedCategories L ++ [Category] |}.

(** [None] is the failed [check]. *)
Definition PopCategory (L : Unlogger) : option Unlogger :=
  if bool_decide (0 < length (PushedCategories L)) then
    Some {| Settings := Settings L; PushedCategories := removelast (PushedCategories L) |}
  else None.

Definition PickCategory (CategoryPicker : Picker) (L : Unlogger) : option UnlogCategoryBase :=
  let SelectedCategory :=
    if bool_decide (0 < length (PushedCategories L)) then last (PushedCategories L) else None in
  Picker_PickCategory CategoryPicker SelectedCategory.

(** ** Process state and effects

    [SettingsStatics] holds the function-local statics of
    [RuntimeSettingsCRTP<T>::Static], keyed by settings type; an entry is
    created on first use and never removed.  [Logger] is the static of
    [Unlogger::Get].  [Trace] records, in program order, the calls that
    leave the library. *)

Inductive Event :=
| EvLambdaCondition (Result : bool)
| EvFilter (Category : UnlogCategoryBase) (Verbosity : ELogVerbosity.t) (Passed : bool)
| EvFormat (Result : FString)
| EvTargetCall (T : Target.t) (Category : UnlogCategoryBase)
    (Verbosity : ELogVerbosity.t) (Message : FString).

Record Process := {
  SettingsStatics : gmap string UnlogRuntimeSettingsBase;
  Logger : option Unlogger;
  Trace : list Event
}.

Definition Process_start : Process :=
  {| SettingsStatics := ∅; Logger := None; Trace := [] |}.

Definition set_Logger (L : Unlogger) (p : Process) : Process :=
  {| SettingsStatics := SettingsStatics p; Logger := Some L; Trace := Trace p |}.

Definition add_events (es : list Event) (p : Process) : Process :=
  {| SettingsStatics := SettingsStatics p; Logger := Logger p; Trace := Trace p ++ es |}.

(** A computation either completes with a value and a new state, or stops
    at a failed [check] ([None]); the engine's [check] is taken as it is
    in a build that evaluates it, where a failure is fatal. *)
Definition M (X : Type) : Type := Process -> option (X * Process).

Definition ret {X} (x : X) : M X := fun p => Some (x, p).

Definition bind {X Y} (m : M X) (k : X -> M Y) : M Y :=
  fun p => match m p with
           | Some (x, p') => k x p'
           | None => None
           end.

Notation "'do' x <- m ; k" := (bind m (fun x => k))
  (at level 10, x name, m at level 100, k at level 200).
Notation "'run' m ; k" := (bind m (fun _ => k))
  (at level 10, m at level 100, k at level 200).

(** Continue with the value of a step that may stop at its [check]. *)
Definition lift_check {X} (o : option X) : M X :=
  fun p => match o with
           | Some x => Some (x, p)
           | None => None
           end.

Definition emit (e : Event) : M unit :=
  fun p => Some (tt, add_events [e] p).

(** [TSettings::Static()]: construct on first use, then always the same
    object.  The result is the address of the static, named by its type. *)
Definition Settings_Static (TSettings : SettingsType) : M string :=
  fun p =>
    match SettingsStatics p !! SettingsName TSettings with
    | Some _ => Some (SettingsName TSettings, p)
    | None =>
        Some (SettingsName TSettings,
              {| SettingsStatics :=
                   <[SettingsName TSettings := MakeSettings TSettings]> (SettingsStatics p);
                 Logger := Logger p;
                 Trace := Trace p |})
    end.

Definition ApplyRuntimeSettingsInternal (TSettings : SettingsType) (L : Unlogger) : M Unlogger :=
  do ptr <- Settings_Static TSettings;
  ret {| Settings := Some ptr; PushedCategories := PushedCategories L |}.

(** [Unlogger Logger;] leaves the pointer unset and the array empty. *)
Definition Unlogger_default : Unlogger :=
  {| Settings := None; PushedCategories := [] |}.

(** The editor-only telemetry dispatcher constructed here is outside the
    model. *)
Definition CreateLogger : M Unlogger :=
  ApplyRuntimeSettingsInternal UnlogDefaultRuntimeSettings Unlogger_default.

Definition Get : M Unlogger :=
  fun p =>
    match Logger p with
    | Some L => Some (L, p)
    | None => (do L <- CreateLogger; fun p' => Some (L, set_Logger L p')) p
    end.

(** Methods invoked on the singleton, [Unlogger::Get().m(...)]. *)
Definition ApplyRuntimeSettings (TSettings : SettingsType) : M unit :=
  do L <- Get;
  do L' <- ApplyRuntimeSettingsInternal TSettings L;
  fun p => Some (tt, set_Logger L' p).

Definition Get_PushCategory (Category : UnlogCategoryBase) : M unit :=
  do L <- Get;
  fun p => Some (tt, set_Logger (PushCategory Category L) p).

Definition Get_PopCategory : M unit :=
  do L <- Get;
  do L' <- lift_check (PopCategory L);
  fun p => Some (tt, set_Logger L' p).

(** The scope stack of a process; empty until the logger exists. *)
Definition ScopeStack (p : Process) : list UnlogCategoryBase :=
  match Logger p with
  | Some L => PushedCategories L
  | None => []
  end.

Definition is_invocation (e : Event) : bool :=
  match e with
  | EvLambdaCondition _ => true
  | _ => false
  end.

(** How many times a condition callable has been invoked. *)
Definition invocations (p : Process) : nat :=
  length (List.filter is_invocation (Trace p)).

(** ** Target dispatch *)

Fixpoint Call (T : Target.t) (Category : UnlogCategoryBase)
  (Verbosity : ELogVerbosity.t) (Message : FString) : M unit :=
  match T with
  | Target.TMultiTarget TTargets =>
      (fix expand (ts : list Target.t) : M unit :=
         match ts with
         | [] => ret tt
         | T' :: ts' => run Call T' Category Verbosity Message; expand ts'
         end) TTargets
  | _ => emit (EvTargetCall T Category Verbosity Message)
  end.

(** ** Numbered-placeholder rendering *)

(** The values an ordered argument list can hold.  The host type can also
    hold floating-point values; their text is outside this model. *)
Inductive FStringFormatArg :=
| ArgInt (Value : Z)
| ArgUInt (Value : N)
| ArgString (Value : FString).

Definition ArgToString (a : FStringFormatArg) : FString :=
  match a with
  | ArgInt z => pretty z
  | ArgUInt n => pretty n
  | ArgString s => s
  end.

Definition is_digit (c : Ascii.ascii) : bool :=
  (48 <=? Ascii.N_of_ascii c)%N && (Ascii.N_of_ascii c <=? 57)%N.

Definition digit_value (c : Ascii.ascii) : nat := N.to_nat (Ascii.N_of_ascii c - 48).

(** Modelled from the spec: the host's [FString::Format] is not part of
    this repository.  The template contains [{0}], [{1}], ... placeholders;
    arguments are substituted positionally by index, any number of times.
    For an index with no corresponding argument the model takes the second
    of the two behaviours the spec allows and emits the placeholder
    literally.  [pending] is [None] outside braces; inside, it holds the
    text read since the opening brace and the index read so far. *)
Fixpoint Format_scan (Args : list FStringFormatArg)
  (pending : option (string * option nat)) (s : string) : FString :=
  match s with
  | EmptyString =>
      match pending with
      | None => EmptyString
      | Some (raw, _) => raw
      end
  | String c s' =>
      match pending with
      | None =>
          if Ascii.eqb c "{"%char then Format_scan Args (Some ("{", None)) s'
          else String c (Format_scan Args None s')
      | Some (raw, idx) =>
          if is_digit c then
            Format_scan Args
              (Some (raw +:+ String c EmptyString,
                     Some (10 * default 0 idx + digit_value c))) s'
          else if Ascii.eqb c "}"%char then
            match idx ≫= (fun i => Args !! i) with
            | Some a => ArgToString a +:+ Format_scan Args None s'
            | None => raw +:+ "}" +:+ Format_scan Args None s'
            end
          else if Ascii.eqb c "{"%char then
            raw +:+ Format_scan Args (Some ("{", None)) s'
          else raw +:+ String c (Format_scan Args None s')
      end
  end.

Definition FString_Format (Fmt : FString) (Args : list FStringFormatArg) : FString :=
  Format_scan Args None Fmt.

(** A format argument of a log call: text wrapped by [TEXT()] or a plain
    [char] literal. *)
Inductive FMT :=
| TCHAR_text (s : FString)
| char_text (s : string).

(** ** Logger flavors *)

(** The format option of the source's configuration is carried by the
    constructor of the call's format argument (see [FormatCall]). *)
Module TStaticConfiguration.
Record t := {
  CategoryPicker : Picker;
  TargetOptions : Target.t
}.
End TStaticConfiguration.

Module TUnlog.
Record t := {
  TargetOptions : Target.t;
  CategoryPicker : Picker
}.

(** [TUnlog<>] *)
Definition Default : t :=
  {| TargetOptions := Target.Default; CategoryPicker := TDeriveCategory LogGeneral |}.

Definition WithTargets (Targets : list Target.t) (U : t) : t :=
  {| TargetOptions := Target.TMultiTarget Targets; CategoryPicker := CategoryPicker U |}.

Definition AddTarget (Targets : list Target.t) (U : t) : t :=
  {| TargetOptions := Target.TMultiTarget (TargetOptions U :: Targets);
     CategoryPicker := CategoryPicker U |}.

Definition WithDefaultCategory (InCategory : UnlogCategoryBase) (U : t) : t :=
  {| TargetOptions := TargetOptions U; CategoryPicker := TDeriveCategory InCategory |}.

Definition WithCategory (InCategory : UnlogCategoryBase) (U : t) : t :=
  {| TargetOptions := TargetOptions U; CategoryPicker := TSpecificCategory InCategory |}.

Definition Configuration (U : t) : TStaticConfiguration.t :=
  {| TStaticConfiguration.CategoryPicker := CategoryPicker U;
     TStaticConfiguration.TargetOptions := TargetOptions U |}.
End TUnlog.

(** The first argument of the [UNLOG] macros: nothing, a category, or a
    logger flavor. *)
Inductive TMacroArgs :=
| MacroArgs_empty
| MacroArgs_category (TCategory : UnlogCategoryBase)
| MacroArgs_logger (U : TUnlog.t).

Definition GetSettings (InMacroArgs : TMacroArgs) (TSourceSettings : TUnlog.t) : TUnlog.t :=
  match InMacroArgs with
  | MacroArgs_empty => TSourceSettings
  | MacroArgs_category TCategory =>
      {| TUnlog.TargetOptions := TUnlog.TargetOptions TSourceSettings;
         TUnlog.CategoryPicker := TSpecificCategory TCategory |}
  | MacroArgs_logger U => U
  end.

(** ** Context flags *)

Definition uint32 (z : Z) : Z := (z mod 2 ^ 32)%Z.

Record UnlogContextBase := {
  ContextName : FName;
  Counter : Z
}.

Definition UNLOG_CONTEXT (ContextName : string) : UnlogContextBase :=
  {| ContextName := ContextName; Counter := 0 |}.

Definition IncrementCounter (c : UnlogContextBase) : UnlogContextBase :=
  {| ContextName := ContextName c; Counter := uint32 (Counter c + 1) |}.

(** [None] is the failed [check(Counter > 0u)]. *)
Definition DecrementCounter (c : UnlogContextBase) : option UnlogContextBase :=
  if bool_decide (Counter c > 0)%Z then
    Some {| ContextName := ContextName c; Counter := uint32 (Counter c - 1) |}
  else None.

Definition IsActive (c : UnlogContextBase) : bool := bool_decide (Counter c > 0)%Z.

Definition WhenActive {X} (c : UnlogContextBase) (Func : X -> X) (x : X) : X :=
  if IsActive c then Func x else x.

Definition WhenNotActive {X} (c : UnlogContextBase) (Func : X -> X) (x : X) : X :=
  if negb (IsActive c) then Func x else x.

Record UnloggerScopedContext := { Value : bool }.

Definition UnloggerScopedContext_ctor (InValue : bool) (c : UnlogContextBase)
  : UnloggerScopedContext * UnlogContextBase :=
  ({| Value := InValue |}, if InValue then IncrementCounter c else c).

Definition UnloggerScopedContext_dtor (g : UnloggerScopedContext) (c : UnlogContextBase)
  : option UnlogContextBase :=
  if Value g then DecrementCounter c else Some c.

(** The flag together with the guards currently alive.  Guards may be
    destroyed in any order. *)
Inductive ContextStep :
  UnlogContextBase * list UnloggerScopedContext ->
  UnlogContextBase * list UnloggerScopedContext -> Prop :=
| Step_construct InValue c live g c' :
    UnloggerScopedContext_ctor InValue c = (g, c') ->
    ContextStep (c, live) (c', live ++ [g])
| Step_destroy i g c live c' :
    live !! i = Some g ->
    UnloggerScopedContext_dtor g c = Some c' ->
    ContextStep (c, live) (c', delete i live).

Definition open_guards (live : list UnloggerScopedContext) : nat :=
  length (filter (fun g => Value g = true) live).

(** The resolution contract in the spec's words:
    [resolve(explicitCategory?, scopeStack, fallbackDefault)].  An explicit
    category wins; else the top of a non-empty scope stack; else the
    fallback default.  [PickCategory] is compared with it below. *)
Definition resolve (explicitCategory : option UnlogCategoryBase)
  (scopeStack : list UnlogCategoryBase) (fallbackDefault : UnlogCategoryBase)
  : UnlogCategoryBase :=
  match explicitCategory with
  | Some c => c
  | None =>
      match last scopeStack with
      | Some top => top
      | None => fallbackDefault
      end
  end.

(** The explicit category and the fallback default a picker stands for. *)
Definition explicit_of (P : Picker) : option UnlogCategoryBase :=
  match P with
  | TSpecificCategory c => Some c
  | TDeriveCategory _ => None
  | UnlogCategoryCRTP c => Some c
  end.

Definition fallback_of (P : Picker) : UnlogCategoryBase :=
  match P with
  | TSpecificCategory c => c
  | TDeriveCategory d => d
  | UnlogCategoryCRTP c => c
  end.

(** The calls a dispatch to [T] makes: one per sink, in declaration order,
    all with the same arguments. *)
Definition fan_out (T : Target.t) (Category : UnlogCategoryBase)
  (Verbosity : ELogVerbosity.t) (Message : FString) : list Event :=
  map (fun S => EvTargetCall S Category Verbosity Message) (Target.sinks T).

(** A computation that completes and leaves the scope stack as it was. *)
Definition keeps_stack (m : M unit) : Prop :=
  forall p, exists p', m p = Some (tt, p') /\ ScopeStack p' = ScopeStack p.

(** Shapes of template text, for stating what the renderer does: text
    without an opening brace, and a non-empty run of decimal digits with
    the index it denotes. *)
Fixpoint brace_free (s : string) : bool :=
  match s with
  | EmptyString => true
  | String c s' => negb (Ascii.eqb c "{"%char) && brace_free s'
  end.

Fixpoint all_digits (ds : string) : bool :=
  match ds with
  | EmptyString => true
  | String c ds' => is_digit c && all_digits ds'
  end.

Fixpoint digits_value (acc : nat) (ds : string) : nat :=
  match ds with
  | EmptyString => acc
  | String c ds' => digits_value (10 * acc + digit_value c) ds'
  end.

(** A settings type with its own default category and one runtime target,
    and two categories, for closed examples. *)
Definition CategoryD : UnlogCategoryBase := UNLOG_CATEGORY "CategoryD".
Definition CategoryA : UnlogCategoryBase := UNLOG_CATEGORY "CategoryA".
Definition CategoryB : UnlogCategoryBase := UNLOG_CATEGORY "CategoryB".

Definition MySettings : SettingsType :=
  {| SettingsName := "MySettings";
     PopulateSettings := fun s => AddTarget "MyTarget" (SetDefaultCategory CategoryD s) |}.

(** ** What the built-in targets ask of the host

    The bodies of the targets' [Call] functions, as the host calls they
    make, in order. *)

(** The host severities the source names. *)
Module EMessageSeverity.
Inductive t := Error | Warning | Info.
End EMessageSeverity.

Inductive HostCall :=
| FMsg_Logf (Category : FName) (Verbosity : ELogVerbosity.t) (Fmt : FString)
    (Message : FString)
| LoadModuleChecked (ModuleName : FName)
| SetLabel (Listing : FName) (Label : FString)
| AddMessage (Listing : FName) (Severity : EMessageSeverity.t) (Message : FString)
| OpenMessageLog (LogName : FName)
| AddOnScreenDebugMessage (Key : Z) (TimeToDisplay : Z) (DisplayColor : FColor.t)
    (DebugMessage : FString)
| CustomCall (Name : string) (Category : UnlogCategoryBase)
    (Verbosity : ELogVerbosity.t) (Message : FString).

Definition INDEX_NONE : Z := (-1)%Z.

Definition VerbosityToSeverity (Verbosity : ELogVerbosity.t) : EMessageSeverity.t :=
  if bool_decide (Verbosity = ELogVerbosity.Error) then EMessageSeverity.Error
  else if bool_decide (Verbosity = ELogVerbosity.Warning) then EMessageSeverity.Warning
  else EMessageSeverity.Info.

Definition GetLogListing (CategoryName : FName) : list HostCall :=
  [SetLabel CategoryName CategoryName].

Definition UELog_Call (Category : UnlogCategoryBase) (Verbosity : ELogVerbosity.t)
  (Message : FString) : list HostCall :=
  [FMsg_Logf (GetName Category) Verbosity "%s" Message].

Definition MessageLog_Call (Category : UnlogCategoryBase) (Verbosity : ELogVerbosity.t)
  (Message : FString) : list HostCall :=
  LoadModuleChecked "MessageLog" ::
  GetLogListing (GetName Category) ++
  AddMessage (GetName Category) (VerbosityToSeverity Verbosity) Message ::
  (if bool_decide (Verbosity = ELogVerbosity.Error)
   then [OpenMessageLog (GetName Category)] else []).

Definition TGameScreen_Call (TimeOnScreen : Z) (InColor : FColor.t)
  (Category : UnlogCategoryBase) (Verbosity : ELogVerbosity.t) (Message : FString)
  : list HostCall :=
  [AddOnScreenDebugMessage INDEX_NONE TimeOnScreen InColor Message].

Fixpoint HostCalls (T : Target.t) (Category : UnlogCategoryBase)
  (Verbosity : ELogVerbosity.t) (Message : FString) : list HostCall :=
  match T with
  | Target.UELog => UELog_Call Category Verbosity Message
  | Target.MessageLog => MessageLog_Call Category Verbosity Message
  | Target.TGameScreen TimeOnScreen InColor =>
      TGameScreen_Call TimeOnScreen InColor Category Verbosity Message
  | Target.Custom Name => [CustomCall Name Category Verbosity Message]
  | Target.TMultiTarget TTargets =>
      (fix expand (ts : list Target.t) : list HostCall :=
         match ts with
         | [] => []
         | T' :: ts' => HostCalls T' Category Verbosity Message ++ expand ts'
         end) TTargets
  end.


Definition is_OpenMessageLog (h : HostCall) : bool :=
  match h with
  | OpenMessageLog _ => true
  | _ => false
  end.

Definition is_MessageLog (T : Target.t) : bool :=
  match T with
  | Target.MessageLog => true
  | _ => false
  end.

(** ** Sequences of builder and settings calls *)

(** One step of a flavor's builder chain, [U::WithTargets<...>] and so on. *)
Inductive Builder :=
| BWithTargets (Targets : list Target.t)
| BAddTarget (Targets : list Target.t)
| BWithDefaultCategory (InCategory : UnlogCategoryBase)
| BWithCategory (InCategory : UnlogCategoryBase).

Definition apply_builder (U : TUnlog.t) (b : Builder) : TUnlog.t :=
  match b with
  | BWithTargets Targets => TUnlog.WithTargets Targets U
  | BAddTarget Targets => TUnlog.AddTarget Targets U
  | BWithDefaultCategory InCategory => TUnlog.WithDefaultCategory InCategory U
  | BWithCategory InCategory => TUnlog.WithCategory InCategory U
  end.

Definition build (U : TUnlog.t) (bs : list Builder) : TUnlog.t :=
  foldl apply_builder U bs.

Definition is_target_builder (b : Builder) : bool :=
  match b with
  | BWithTargets _ | BAddTarget _ => true
  | _ => false
  end.

(** One statement of a [PopulateSettings] body. *)
Inductive SettingsOp :=
| OpAddTarget (TTarget : string)
| OpSetDefaultCategory (TCategory : UnlogCategoryBase).

Definition apply_op (s : UnlogRuntimeSettingsBase) (op : SettingsOp)
  : UnlogRuntimeSettingsBase :=
  match op with
  | OpAddTarget TTarget => AddTarget TTarget s
  | OpSetDefaultCategory TCategory => SetDefaultCategory TCategory s
  end.

Definition populate (ops : list SettingsOp) (s : UnlogRuntimeSettingsBase)
  : UnlogRuntimeSettingsBase :=
  foldl apply_op s ops.

Definition added_targets (ops : list SettingsOp) : list string :=
  omap (fun op => match op with OpAddTarget t => Some t | _ => None end) ops.

Definition set_categories (ops : list SettingsOp) : list UnlogCategoryBase :=
  omap (fun op => match op with OpSetDefaultCategory c => Some c | _ => None end) ops.

(** ** The installation identifier of the telemetry dispatcher

    [FTelemetryDispatcher::AppId].  The host's GUID type is four 32-bit
    words, all zero when default-constructed.  Its text form ([ToString],
    [Parse]) and its generator are the host's: the two conversions are
    arguments of the functions below, and the value [FGuid::NewGuid()]
    would return is an argument of [AppId_Get].  [IdFile] is what loading
    the identifier file yields ([None]: it cannot be loaded); [Writable]
    says whether saving to it succeeds. *)
Module FGuid.
Record t := { A : Z; B : Z; C : Z; D : Z }.
#[global] Instance eq_dec : EqDecision t.
Proof. solve_decision. Defined.
End FGuid.






(** A host in which narrow text is 7-bit and so converts to itself, and
    whose printf renderer is given no arguments.  Used for closed examples. *)
Definition ascii_UTF8_TO_TCHAR (s : string) : FString := s.
Definition plain_Printf (Format : FString) (Args : unit) : FString := Format.

(** ** The logging core *)

Section Core.

(** The host's text conversion and printf renderer, and the type of a
    printf argument pack. *)
Variable UTF8_TO_TCHAR : string -> FString.
Variable VarArgs : Type.
Variable FString_Printf : FString -> VarArgs -> FString.

Definition ResolveString (Format : FMT) : FString :=
  match Format with
  | TCHAR_text s => s
  | char_text s => UTF8_TO_TCHAR s
  end.

(** What a call hands to the renderer.  [OrderedArguments] is a call
    through [FunctionName] (numbered format), whose arguments must convert
    to [FStringFormatArg]; [PrintfArguments] is a call through
    [FunctionName##f], whose template must be wrapped by [TEXT()].  Both
    restrictions are [static_assert]s in the source. *)
Inductive FormatCall :=
| OrderedArguments (Format : FMT) (Args : list FStringFormatArg)
| PrintfArguments (Format : FString) (Args : VarArgs).

Definition IsPrintfFormat (fc : FormatCall) : bool :=
  match fc with
  | OrderedArguments _ _ => false
  | PrintfArguments _ _ => true
  end.

Definition ProcessFormatString (fc : FormatCall) : FString :=
  match fc with
  | OrderedArguments Format Args => FString_Format (ResolveString Format) Args
  | PrintfArguments Format Args => FString_Printf Format Args
  end.

Definition passes (Verbosity : ELogVerbosity.t) (Category : UnlogCategoryBase) : bool :=
  bool_decide (Verbosity ≤ GetVerbosity Category)%Z
  && negb (bool_decide (Verbosity = ELogVerbosity.NoLogging)).

Definition UnlogPrivateImpl (cfg : TStaticConfiguration.t) (fc : FormatCall)
  (Verbosity : ELogVerbosity.t) (L : Unlogger) : M unit :=
  do Category <- lift_check (PickCategory (TStaticConfiguration.CategoryPicker cfg) L);
  run emit (EvFilter Category Verbosity (passes Verbosity Category));
  if passes Verbosity Category then
    let Result := ProcessFormatString fc in
    run emit (EvFormat Result);
    Call (TStaticConfiguration.TargetOptions cfg) Category Verbosity Result
  else ret tt.

(** What the spec says a call that reaches the filter does, in order:
    the filter, then (only if it passes) the rendering, then the dispatch. *)
Definition emission (T : Target.t) (fc : FormatCall) (Verbosity : ELogVerbosity.t)
  (Category : UnlogCategoryBase) : list Event :=
  EvFilter Category Verbosity (passes Verbosity Category) ::
  if passes Verbosity Category then
    EvFormat (ProcessFormatString fc) ::
    fan_out T Category Verbosity (ProcessFormatString fc)
  else [].

(** *** The three call shapes of a flavor

    [UNLOG_ENABLED] is the build switch; with it off every shape is the
    empty function.  [TCategory] is the first template parameter of the
    generated functions, the one a call such as [Unlog::Log<MyCategory>]
    sets; its default is the flavor's picker.  The bodies build their
    configuration from the flavor's picker and do not mention it. *)

Definition FunctionName (TCategory : Picker) (UNLOG_ENABLED : bool) (U : TUnlog.t)
  (VerbosityName : ELogVerbosity.t) (fc : FormatCall) : M unit :=
  if UNLOG_ENABLED then
    do L <- Get;
    UnlogPrivateImpl (TUnlog.Configuration U) fc VerbosityName L
  else ret tt.

Definition FunctionName_Condition (TCategory : Picker) (UNLOG_ENABLED : bool) (U : TUnlog.t)
  (VerbosityName : ELogVerbosity.t) (Condition : bool) (fc : FormatCall) : M unit :=
  if UNLOG_ENABLED then
    if Condition then
      do L <- Get;
      UnlogPrivateImpl (TUnlog.Configuration U) fc VerbosityName L
    else ret tt
  else ret tt.

(** Invoking a [TFunction<bool()>]. *)
Definition invoke (LambdaCondition : unit -> bool) : M bool :=
  fun p => Some (LambdaCondition tt, add_events [EvLambdaCondition (LambdaCondition tt)] p).

Definition FunctionName_LambdaCondition (TCategory : Picker) (UNLOG_ENABLED : bool)
  (U : TUnlog.t)
  (VerbosityName : ELogVerbosity.t) (LambdaCondition : unit -> bool) (fc : FormatCall)
  : M unit :=
  if UNLOG_ENABLED then
    do Condition <- invoke LambdaCondition;
    FunctionName_Condition (TUnlog.CategoryPicker U) UNLOG_ENABLED U VerbosityName Condition fc
  else ret tt.

(** *** The macros *)

Definition UnlogMacroExpand (UnlogOptions : TUnlog.t) (InVerbosity : ELogVerbosity.t)
  (fc : FormatCall) : M unit :=
  do L <- Get;
  UnlogPrivateImpl (TUnlog.Configuration UnlogOptions) fc InVerbosity L.

Definition UNLOG (UNLOG_ENABLED : bool) (Unlog : TUnlog.t) (InMacroArgs : TMacroArgs)
  (VerbosityName : ELogVerbosity.t) (Message : FString) (Args : list FStringFormatArg)
  : M unit :=
  if UNLOG_ENABLED then
    UnlogMacroExpand (GetSettings InMacroArgs Unlog) VerbosityName
      (OrderedArguments (TCHAR_text Message) Args)
  else ret tt.

Definition UNLOGF (UNLOG_ENABLED : bool) (Unlog : TUnlog.t) (InMacroArgs : TMacroArgs)
  (VerbosityName : ELogVerbosity.t) (Message : FString) (Args : VarArgs) : M unit :=
  if UNLOG_ENABLED then
    UnlogMacroExpand (GetSettings InMacroArgs Unlog) VerbosityName
      (PrintfArguments Message Args)
  else ret tt.

Definition UNCLOG (UNLOG_ENABLED : bool) (Unlog : TUnlog.t) (Condition : bool)
  (InMacroArgs : TMacroArgs) (VerbosityName : ELogVerbosity.t) (Message : FString)
  (Args : list FStringFormatArg) : M unit :=
  if UNLOG_ENABLED then
    if Condition then
      UnlogMacroExpand (GetSettings InMacroArgs Unlog) VerbosityName
        (OrderedArguments (TCHAR_text Message) Args)
    else ret tt
  else ret tt.

Definition UNCLOGF (UNLOG_ENABLED : bool) (Unlog : TUnlog.t) (Condition : bool)
  (InMacroArgs : TMacroArgs) (VerbosityName : ELogVerbosity.t) (Message : FString)
  (Args : VarArgs) : M unit :=
  if UNLOG_ENABLED then
    if Condition then
      UnlogMacroExpand (GetSettings InMacroArgs Unlog) VerbosityName
        (PrintfArguments Message Args)
    else ret tt
  else ret tt.

(** *** Scoped categories

    [FUnlogScopedCategory<TCategory>]: the constructor pushes, the
    destructor pops. *)

Definition FUnlogScopedCategory_ctor (TCategory : UnlogCategoryBase) : M unit :=
  Get_PushCategory TCategory.

Definition FUnlogScopedCategory_dtor : M unit := Get_PopCategory.

(** Code that uses the guard as a local variable: a block opens with
    [UNLOG_CATEGORY_PUSH(TCategory)], runs its body, and the guard is
    destroyed when the block is left.  The macro initialises the local
    from a temporary; the copy is taken to be elided, so one guard is
    constructed and one destroyed. *)
#[local] Set Warnings "-register-all".
Inductive Stmt :=
| SLog (TCategory : Picker) (U : TUnlog.t) (VerbosityName : ELogVerbosity.t)
    (fc : FormatCall)
| SLogIf (TCategory : Picker) (U : TUnlog.t) (VerbosityName : ELogVerbosity.t)
    (Condition : bool) (fc : FormatCall)
| SLogWhen (TCategory : Picker) (U : TUnlog.t) (VerbosityName : ELogVerbosity.t)
    (LambdaCondition : unit -> bool) (fc : FormatCall)
| SScope (TCategory : UnlogCategoryBase) (Body : list Stmt).

Fixpoint exec (s : Stmt) : M unit :=
  match s with
  | SLog TCategory U V fc => FunctionName TCategory true U V fc
  | SLogIf TCategory U V Condition fc => FunctionName_Condition TCategory true U V Condition fc
  | SLogWhen TCategory U V LambdaCondition fc =>
      FunctionName_LambdaCondition TCategory true U V LambdaCondition fc
  | SScope TCategory Body =>
      run FUnlogScopedCategory_ctor TCategory;
      run (fix exec_body (ss : list Stmt) : M unit :=
             match ss with
             | [] => ret tt
             | s' :: ss' => run exec s'; exec_body ss'
             end) Body;
      FUnlogScopedCategory_dtor
  end.

Definition exec_all (ss : list Stmt) : M unit :=
  foldr (fun s k => run exec s; k) (ret tt) ss.


(** *** The functions of a flavor, by name *)

Definition Unlog_Log (TCategory : Picker) (E : bool) (U : TUnlog.t) (fc : FormatCall)
  : M unit := FunctionName TCategory E U ELogVerbosity.Log fc.
Definition Unlog_Warn (TCategory : Picker) (E : bool) (U : TUnlog.t) (fc : FormatCall)
  : M unit := FunctionName TCategory E U ELogVerbosity.Warning fc.
Definition Unlog_Error (TCategory : Picker) (E : bool) (U : TUnlog.t) (fc : FormatCall)
  : M unit := FunctionName TCategory E U ELogVerbosity.Error fc.
Definition Unlog_Display (TCategory : Picker) (E : bool) (U : TUnlog.t) (fc : FormatCall)
  : M unit := FunctionName TCategory E U ELogVerbosity.Display fc.
Definition Unlog_Verbose (TCategory : Picker) (E : bool) (U : TUnlog.t) (fc : FormatCall)
  : M unit := FunctionName TCategory E U ELogVerbosity.Verbose fc.
Definition Unlog_VeryVerbose (TCategory : Picker) (E : bool) (U : TUnlog.t)
  (fc : FormatCall) : M unit := FunctionName TCategory E U ELogVerbosity.VeryVerbose fc.

(** *** Programs, read by their nesting

    The events a statement produces when it starts with scope stack
    [stack]: every log call under the category resolved from the
    categories of the blocks around it. *)

Definition call_events (stack : list UnlogCategoryBase) (U : TUnlog.t)
  (V : ELogVerbosity.t) (fc : FormatCall) : list Event :=
  emission (TUnlog.TargetOptions U) fc V
    (resolve (explicit_of (TUnlog.CategoryPicker U)) stack
       (fallback_of (TUnlog.CategoryPicker U))).

Fixpoint events_of (stack : list UnlogCategoryBase) (s : Stmt) : list Event :=
  match s with
  | SLog _ U V fc => call_events stack U V fc
  | SLogIf _ U V Condition fc => if Condition then call_events stack U V fc else []
  | SLogWhen _ U V LambdaCondition fc =>
      EvLambdaCondition (LambdaCondition tt) ::
      if LambdaCondition tt then call_events stack U V fc else []
  | SScope TCategory Body =>
      (fix events_of_body (ss : list Stmt) : list Event :=
         match ss with
         | [] => []
         | s' :: ss' => events_of (stack ++ [TCategory]) s' ++ events_of_body ss'
         end) Body
  end.

Definition events_of_all (stack : list UnlogCategoryBase) (ss : list Stmt) : list Event :=
  flat_map (events_of stack) ss.

(** The lazily-guarded calls a statement makes. *)
Fixpoint lazy_calls (s : Stmt) : nat :=
  match s with
  | SLog _ _ _ _ | SLogIf _ _ _ _ _ => 0
  | SLogWhen _ _ _ _ _ => 1
  | SScope _ Body =>
      (fix lazy_calls_body (ss : list Stmt) : nat :=
         match ss with
         | [] => 0
         | s' :: ss' => lazy_calls s' + lazy_calls_body ss'
         end) Body
  end.

(** * Properties *)

(** ** Traces and the monad *)

Lemma bind_Some {X Y} (m : M X) (k : X -> M Y) p x p' :
  m p = Some (x, p') -> bind m k p = k x p'.
Proof. unfold bind. by intros ->. Qed.

Lemma add_events_nil p : add_events [] p = p.
Proof. destruct p; unfold add_events; simpl. by rewrite app_nil_r. Qed.

Lemma add_events_app es1 es2 p :
  add_events es2 (add_events es1 p) = add_events (es1 ++ es2) p.
Proof. unfold add_events; simpl. by rewrite app_assoc. Qed.

Lemma Trace_add_events es p : Trace (add_events es p) = Trace p ++ es.
Proof. done. Qed.

Lemma ScopeStack_add_events es p : ScopeStack (add_events es p) = ScopeStack p.
Proof. done. Qed.

Lemma invocations_add_events es p :
  invocations (add_events es p) = invocations p + length (List.filter is_invocation es).
Proof. unfold invocations; simpl. by rewrite List.filter_app, length_app. Qed.

(** ** Dispatch *)

Lemma Target_ind_nested (P : Target.t -> Prop) :
  P Target.UELog ->
  P Target.MessageLog ->
  (forall t c, P (Target.TGameScreen t c)) ->
  (forall n, P (Target.Custom n)) ->
  (forall ts, Forall P ts -> P (Target.TMultiTarget ts)) ->
  forall T, P T.
Proof.
  intros HU HM HG HC HT.
  fix IH 1. intros [ | | t c | n | ts].
  - exact HU.
  - exact HM.
  - apply HG.
  - apply HC.
  - apply HT. induction ts as [|T' ts' IHts]; constructor; [apply IH | exact IHts].
Qed.

Lemma Call_fan_out T Category Verbosity Message p :
  Call T Category Verbosity Message p
  = Some (tt, add_events (fan_out T Category Verbosity Message) p).
Proof.
  revert p. induction T as [ | | t c | n | ts IHts] using Target_ind_nested;
    intros p; try reflexivity.
  unfold fan_out. simpl.
  induction IHts as [|T' ts' HT' _ IH] in p |- *.
  - simpl. unfold ret. by rewrite add_events_nil.
  - unfold bind at 1. rewrite HT'. rewrite IH.
    rewrite add_events_app. unfold fan_out. by rewrite map_app.
Qed.

Lemma sinks_of_sinks ts :
  forallb Target.is_sink ts = true -> Target.sinks (Target.TMultiTarget ts) = ts.
Proof.
  simpl. induction ts as [|T ts IH]; [done|].
  simpl. intros [HT Hts]%andb_prop. rewrite (IH Hts).
  by destruct T.
Qed.

(** ** Category resolution *)

Lemma selected_is_last (stack : list UnlogCategoryBase) :
  (if bool_decide (0 < length stack) then last stack else None) = last stack.
Proof. destruct stack; [done|]. by rewrite bool_decide_true by (simpl; lia). Qed.

Lemma PickCategory_resolve P L :
  PickCategory P L = Some (resolve (explicit_of P) (PushedCategories L) (fallback_of P)).
Proof.
  unfold PickCategory. rewrite selected_is_last.
  destruct P; simpl; try done. by destruct (last _).
Qed.

(** ** The logger singleton *)

Lemma Get_spec p :
  exists L p', Get p = Some (L, p') /\ Logger p' = Some L /\
    PushedCategories L = ScopeStack p /\ Trace p' = Trace p /\
    (forall k o, SettingsStatics p !! k = Some o -> SettingsStatics p' !! k = Some o).
Proof.
  unfold Get, ScopeStack. destruct (Logger p) as [L|] eqn:HL.
  - exists L, p. by rewrite HL.
  - unfold CreateLogger, ApplyRuntimeSettingsInternal, bind, Settings_Static, ret.
    destruct (SettingsStatics p !! _) eqn:Hs; simpl.
    + eexists _, _. repeat split; eauto.
    + eexists _, _. repeat split; eauto.
      intros k o Hk. simpl in *. rewrite lookup_insert_ne; [done|]. intros <-. congruence.
Qed.

Lemma Get_statics_other p L p' k :
  Get p = Some (L, p') ->
  k <> SettingsName UnlogDefaultRuntimeSettings ->
  SettingsStatics p' !! k = SettingsStatics p !! k.
Proof.
  unfold Get. destruct (Logger p) as [L0|] eqn:HL.
  - by intros [= <- <-].
  - unfold CreateLogger, ApplyRuntimeSettingsInternal, bind, Settings_Static, ret.
    destruct (SettingsStatics p !! _) eqn:Hs; simpl; intros [= <- <-] Hk; [done|].
    simpl. by rewrite lookup_insert_ne.
Qed.

Lemma Get_again L p : Logger p = Some L -> Get p = Some (L, p).
Proof. unfold Get. by intros ->. Qed.

Lemma UnlogPrivateImpl_emission cfg fc Verbosity L p :
  UnlogPrivateImpl cfg fc Verbosity L p
  = Some (tt, add_events
                (emission (TStaticConfiguration.TargetOptions cfg) fc Verbosity
                   (resolve (explicit_of (TStaticConfiguration.CategoryPicker cfg))
                      (PushedCategories L)
                      (fallback_of (TStaticConfiguration.CategoryPicker cfg)))) p).
Proof.
  unfold UnlogPrivateImpl, emission. rewrite PickCategory_resolve.
  unfold bind, lift_check, emit, ret. simpl.
  destruct (passes _ _); [|done].
  rewrite Call_fan_out. by rewrite !add_events_app.
Qed.

Lemma FunctionName_emission TCategory U V fc p :
  exists p', FunctionName TCategory true U V fc p = Some (tt, p') /\
    Trace p' = Trace p ++
      emission (TUnlog.TargetOptions U) fc V
        (resolve (explicit_of (TUnlog.CategoryPicker U)) (ScopeStack p)
           (fallback_of (TUnlog.CategoryPicker U))) /\
    ScopeStack p' = ScopeStack p /\
    (forall k o, SettingsStatics p !! k = Some o -> SettingsStatics p' !! k = Some o).
Proof.
  destruct (Get_spec p) as (L & p0 & HG & HL & Hst & Htr & Hs).
  unfold FunctionName, bind. rewrite HG, UnlogPrivateImpl_emission.
  eexists. split; [done|]. simpl. rewrite Htr, Hst. repeat split; try done.
  unfold ScopeStack; simpl. by rewrite HL.
Qed.

Lemma FunctionName_Condition_true TCategory U V fc :
  FunctionName_Condition TCategory true U V true fc = FunctionName TCategory true U V fc.
Proof. reflexivity. Qed.

(** The template argument [TCategory] takes no part in any of the three
    shapes. *)
Lemma TCategory_unused T1 T2 E U V fc :
  FunctionName T1 E U V fc = FunctionName T2 E U V fc /\
  (forall b, FunctionName_Condition T1 E U V b fc = FunctionName_Condition T2 E U V b fc) /\
  (forall f, FunctionName_LambdaCondition T1 E U V f fc
             = FunctionName_LambdaCondition T2 E U V f fc).
Proof. by split_and!. Qed.

Lemma no_invocation_in_emission T fc V c :
  List.filter is_invocation (emission T fc V c) = [].
Proof.
  unfold emission, fan_out. simpl. destruct (passes V c); [|done]. simpl.
  induction (Target.sinks T); [done|]. by simpl.
Qed.

Lemma passes_iff (V : ELogVerbosity.t) c :
  passes V c = true <-> (V <= GetVerbosity c /\ V <> ELogVerbosity.NoLogging)%Z.
Proof.
  unfold passes. rewrite andb_true_iff, negb_true_iff.
  rewrite bool_decide_eq_true, bool_decide_eq_false. tauto.
Qed.

(** ** Runtime settings *)

Lemma ApplyRuntimeSettings_spec TSettings p :
  exists L p', ApplyRuntimeSettings TSettings p = Some (tt, p') /\
    Logger p' = Some L /\
    Settings L = Some (SettingsName TSettings) /\
    is_Some (SettingsStatics p' !! SettingsName TSettings) /\
    (SettingsStatics p !! SettingsName TSettings = None ->
     SettingsName TSettings <> SettingsName UnlogDefaultRuntimeSettings ->
     SettingsStatics p' !! SettingsName TSettings = Some (MakeSettings TSettings)) /\
    (forall k o, SettingsStatics p !! k = Some o -> SettingsStatics p' !! k = Some o) /\
    ScopeStack p' = ScopeStack p /\ Trace p' = Trace p.
Proof.
  destruct (Get_spec p) as (L & p0 & HG & HL & Hst & Htr & Hs).
  pose proof (Get_statics_other p L p0 (SettingsName TSettings) HG) as Hother.
  unfold ApplyRuntimeSettings. rewrite (bind_Some _ _ _ _ _ HG).
  unfold ApplyRuntimeSettingsInternal, bind, Settings_Static, ret.
  destruct (SettingsStatics p0 !! SettingsName TSettings) as [o|] eqn:Ho.
  - eexists _, _. split_and!; try done.
    intros Hnone Hne. apply Hother in Hne. congruence.
  - eexists _, _. split_and!; try done; simpl.
    + by rewrite lookup_insert_eq.
    + intros _ _. by rewrite lookup_insert_eq.
    + intros k o Hk. apply Hs in Hk. rewrite lookup_insert_ne; [done|].
      intros <-. congruence.
Qed.

(** ** Scoped categories *)

Lemma Stmt_ind_nested (P : Stmt -> Prop) :
  (forall T U V fc, P (SLog T U V fc)) ->
  (forall T U V b fc, P (SLogIf T U V b fc)) ->
  (forall T U V f fc, P (SLogWhen T U V f fc)) ->
  (forall C Body, Forall P Body -> P (SScope C Body)) ->
  forall s, P s.
Proof.
  intros HL HI HW HS.
  fix IH 1. intros [T U V fc | T U V b fc | T U V f fc | C Body].
  - apply HL.
  - apply HI.
  - apply HW.
  - apply HS. induction Body as [|s' Body' IHB]; constructor; [apply IH | exact IHB].
Qed.

Lemma ctor_spec C p :
  exists p', FUnlogScopedCategory_ctor C p = Some (tt, p') /\
    ScopeStack p' = ScopeStack p ++ [C] /\ Trace p' = Trace p.
Proof.
  destruct (Get_spec p) as (L & p0 & HG & HL & Hst & Htr & _).
  unfold FUnlogScopedCategory_ctor, Get_PushCategory, bind. rewrite HG.
  eexists. split; [reflexivity|]. unfold ScopeStack at 1. simpl. by rewrite Hst.
Qed.

Lemma dtor_spec C stack p :
  ScopeStack p = stack ++ [C] ->
  exists p', FUnlogScopedCategory_dtor p = Some (tt, p') /\
    ScopeStack p' = stack /\ Trace p' = Trace p.
Proof.
  intros Hp. destruct (Get_spec p) as (L & p0 & HG & HL & Hst & Htr & _).
  unfold FUnlogScopedCategory_dtor, Get_PopCategory, bind. rewrite HG.
  unfold PopCategory. rewrite Hst, Hp.
  rewrite bool_decide_true by (rewrite length_app; simpl; lia).
  simpl. eexists. split; [reflexivity|]. unfold ScopeStack at 1. simpl.
  by rewrite removelast_last.
Qed.

Lemma dtor_empty p : ScopeStack p = [] -> FUnlogScopedCategory_dtor p = None.
Proof.
  intros Hp. destruct (Get_spec p) as (L & p0 & HG & HL & Hst & Htr & _).
  unfold FUnlogScopedCategory_dtor, Get_PopCategory, bind. rewrite HG.
  unfold PopCategory. by rewrite Hst, Hp.
Qed.

Lemma keeps_stack_ret : keeps_stack (ret tt).
Proof. intros p. by exists p. Qed.

Lemma keeps_stack_bind m k :
  keeps_stack m -> keeps_stack k -> keeps_stack (run m; k).
Proof.
  intros Hm Hk p. destruct (Hm p) as (p1 & H1 & S1). destruct (Hk p1) as (p2 & H2 & S2).
  exists p2. unfold bind. rewrite H1. split; [done|]. congruence.
Qed.

Lemma keeps_stack_FunctionName TCategory U V fc :
  keeps_stack (FunctionName TCategory true U V fc).
Proof.
  intros p. destruct (FunctionName_emission TCategory U V fc p) as (p' & H & _ & Hs & _). eauto.
Qed.

Lemma keeps_stack_Condition TCategory U V b fc :
  keeps_stack (FunctionName_Condition TCategory true U V b fc).
Proof.
  destruct b; [apply (keeps_stack_FunctionName TCategory) | apply keeps_stack_ret].
Qed.

Lemma keeps_stack_LambdaCondition TCategory U V f fc :
  keeps_stack (FunctionName_LambdaCondition TCategory true U V f fc).
Proof.
  intros p. unfold FunctionName_LambdaCondition, invoke, bind at 1.
  destruct (keeps_stack_Condition (TUnlog.CategoryPicker U) U V (f tt) fc (add_events [EvLambdaCondition (f tt)] p))
    as (p' & H & Hs).
  eauto.
Qed.

Lemma exec_SScope C Body :
  exec (SScope C Body)
  = (run FUnlogScopedCategory_ctor C; run exec_all Body; FUnlogScopedCategory_dtor).
Proof.
  reflexivity.
Qed.

Lemma keeps_stack_exec_all_of ss :
  Forall (fun s => keeps_stack (exec s)) ss -> keeps_stack (exec_all ss).
Proof.
  induction 1 as [|s ss Hs _ IH]; [apply keeps_stack_ret|].
  by apply keeps_stack_bind.
Qed.

Lemma keeps_stack_exec s : keeps_stack (exec s).
Proof.
  induction s as [T U V fc | T U V b fc | T U V f fc | C Body IHB] using Stmt_ind_nested.
  - apply keeps_stack_FunctionName.
  - apply keeps_stack_Condition.
  - apply keeps_stack_LambdaCondition.
  - rewrite exec_SScope. intros p.
    destruct (ctor_spec C p) as (p1 & H1 & S1 & _).
    destruct (keeps_stack_exec_all_of Body IHB p1) as (p2 & H2 & S2).
    destruct (dtor_spec C (ScopeStack p) p2) as (p3 & H3 & S3 & _); [congruence|].
    exists p3. by rewrite (bind_Some _ _ _ _ _ H1), (bind_Some _ _ _ _ _ H2).
Qed.

Lemma keeps_stack_exec_all ss : keeps_stack (exec_all ss).
Proof.
  apply keeps_stack_exec_all_of, Forall_forall. intros s _. apply keeps_stack_exec.
Qed.

(** ** Numbered placeholders *)

#[local] Arguments String.append !_ _ / : simpl nomatch.

Lemma append_assoc (a b c : string) : (a +:+ b) +:+ c = a +:+ (b +:+ c).
Proof. induction a as [|x a IH]; simpl; [done | by f_equal]. Qed.

Lemma scan_literal Args l rest :
  brace_free l = true ->
  Format_scan Args None (l +:+ rest) = l +:+ Format_scan Args None rest.
Proof.
  induction l as [|c l IH]; [done|]. simpl.
  intros [Hc Hl]%andb_prop. apply negb_true_iff in Hc. rewrite Hc.
  by rewrite IH.
Qed.

Lemma scan_digits Args ds raw idx rest :
  all_digits ds = true ->
  Format_scan Args (Some (raw, Some idx)) (ds +:+ rest)
  = Format_scan Args (Some (raw +:+ ds, Some (digits_value idx ds))) rest.
Proof.
  revert raw idx. induction ds as [|c ds IH]; intros raw idx.
  - intros _. simpl. replace (raw +:+ "") with raw; [done|].
    clear. induction raw as [|x raw IH]; [done|]. simpl. by rewrite <- IH.
  - simpl. intros [Hc Hds]%andb_prop. rewrite Hc. rewrite IH by done.
    simpl. by rewrite append_assoc.
Qed.

Lemma scan_placeholder Args c ds rest :
  is_digit c = true ->
  all_digits ds = true ->
  Format_scan Args None ("{" +:+ String c ds +:+ "}" +:+ rest)
  = match Args !! digits_value 0 (String c ds) with
    | Some a => ArgToString a +:+ Format_scan Args None rest
    | None => "{" +:+ String c ds +:+ "}" +:+ Format_scan Args None rest
    end.
Proof.
  intros Hc Hds. cbn [String.append Format_scan Ascii.eqb Bool.eqb].
  rewrite Hc. rewrite scan_digits by done.
  cbn [Format_scan]. 
  assert (is_digit "}" = false) as -> by reflexivity.
  cbn [Ascii.eqb Bool.eqb option_bind mbind default digits_value].
  simpl default. 
  destruct (Args !! _); [done|].
  by rewrite !append_assoc.
Qed.

Lemma append_nil_r (a : string) : a +:+ "" = a.
Proof. induction a as [|x a IH]; simpl; [done | by f_equal]. Qed.

(** ** Context flags *)

Lemma open_guards_cons g live :
  open_guards (g :: live) = (if Value g then 1 else 0) + open_guards live.
Proof.
  unfold open_guards. rewrite filter_cons.
  destruct (Value g); by case_decide.
Qed.

Lemma open_guards_snoc live g :
  open_guards (live ++ [g]) = open_guards live + (if Value g then 1 else 0).
Proof.
  induction live as [|h t IH]; simpl.
  - rewrite open_guards_cons. unfold open_guards. simpl. lia.
  - rewrite !open_guards_cons, IH. lia.
Qed.

Lemma open_guards_delete live i g :
  live !! i = Some g ->
  open_guards live = open_guards (delete i live) + (if Value g then 1 else 0).
Proof.
  revert i. induction live as [|h t IH]; intros [|i] H; simplify_eq/=.
  - rewrite open_guards_cons. lia.
  - rewrite !open_guards_cons. rewrite (IH i H). lia.
Qed.

Lemma open_guards_pos live :
  0 < open_guards live <-> exists g, g ∈ live /\ Value g = true.
Proof.
  induction live as [|h t IH].
  - split; [unfold open_guards; simpl; lia|]. intros (g & Hg & _). by apply elem_of_nil in Hg.
  - rewrite open_guards_cons. split.
    + intros H. destruct (Value h) eqn:Hh.
      * exists h. split; [left|done].
      * apply IH in H as (g & Hg & Hv). exists g. split; [by right|done].
    + intros (g & Hg & Hv). apply elem_of_cons in Hg as [->|Hg].
      * rewrite Hv. lia.
      * assert (0 < open_guards t) by (apply IH; eauto). lia.
Qed.

Lemma uint32_small (z : Z) : (0 <= z < 2 ^ 32)%Z -> uint32 z = z.
Proof. intros H. unfold uint32. by apply Z.mod_small. Qed.

Lemma ContextStep_counter c live c' live' :
  ContextStep (c, live) (c', live') ->
  Counter c = uint32 (Z.of_nat (open_guards live)) ->
  Counter c' = uint32 (Z.of_nat (open_guards live')).
Proof.
  inversion 1 as [InValue c0 live0 g c0' Hctor | i g c0 live0 c0' Hi Hdtor]; subst; intros Hc.
  - unfold UnloggerScopedContext_ctor in Hctor. injection Hctor as <- <-.
    rewrite open_guards_snoc. simpl. destruct InValue; simpl.
    + rewrite Hc. unfold uint32. rewrite Nat2Z.inj_add. simpl.
      by rewrite Zplus_mod_idemp_l.
    + rewrite Hc. f_equal. lia.
  - pose proof (open_guards_delete _ _ _ Hi) as Hn.
    unfold UnloggerScopedContext_dtor in Hdtor. destruct (Value g).
    + unfold DecrementCounter in Hdtor. case_bool_decide; [|done].
      injection Hdtor as <-. simpl. rewrite Hc. unfold uint32.
      rewrite Zminus_mod_idemp_l. f_equal. lia.
    + injection Hdtor as <-. rewrite Hc. f_equal. lia.
Qed.

Lemma reachable_counter ContextName c live :
  rtc ContextStep (UNLOG_CONTEXT ContextName, []) (c, live) ->
  Counter c = uint32 (Z.of_nat (open_guards live)).
Proof.
  revert c live.
  cut (forall st, rtc ContextStep (UNLOG_CONTEXT ContextName, []) st ->
                  Counter st.1 = uint32 (Z.of_nat (open_guards st.2))).
  { intros Hcut c live H. exact (Hcut _ H). }
  apply rtc_ind_r; [done|].
  intros [c1 l1] [c2 l2] _ Hstep IH. simpl in *. by eapply ContextStep_counter.
Qed.

Lemma IncrementCounter_Counter c :
  (0 <= Counter c)%Z -> (Counter c + 1 < 2 ^ 32)%Z ->
  Counter (IncrementCounter c) = (Counter c + 1)%Z.
Proof. intros. simpl. apply uint32_small. lia. Qed.

Lemma DecrementCounter_Counter c :
  (0 < Counter c)%Z -> (Counter c < 2 ^ 32)%Z ->
  exists c', DecrementCounter c = Some c' /\ Counter c' = (Counter c - 1)%Z.
Proof.
  intros. unfold DecrementCounter. rewrite bool_decide_true by lia.
  eexists. split; [reflexivity|]. simpl. apply uint32_small. lia.
Qed.

Lemma IsActive_Counter c : IsActive c = true <-> (0 < Counter c)%Z.
Proof. unfold IsActive. rewrite bool_decide_eq_true. lia. Qed.


(** ** The claims *)

(** C1: a log call emits only when its verbosity is at most the resolved
    category's threshold and is not NoLogging.  When that holds the call
    renders the format string and dispatches the result to the target;
    when it does not, the call does nothing beyond the test itself: no
    rendering and no dispatch. *)
Theorem C1_filter_gates_format_and_dispatch
  cfg fc (Verbosity : ELogVerbosity.t) L p :
  exists Category,
    PickCategory (TStaticConfiguration.CategoryPicker cfg) L = Some Category /\
    ((Verbosity <= GetVerbosity Category /\ Verbosity <> ELogVerbosity.NoLogging)%Z ->
     UnlogPrivateImpl cfg fc Verbosity L p
     = Some (tt, add_events
                   ([EvFilter Category Verbosity true; EvFormat (ProcessFormatString fc)]
                    ++ fan_out (TStaticConfiguration.TargetOptions cfg) Category Verbosity
                         (ProcessFormatString fc)) p)) /\
    (~ (Verbosity <= GetVerbosity Category /\ Verbosity <> ELogVerbosity.NoLogging)%Z ->
     UnlogPrivateImpl cfg fc Verbosity L p
     = Some (tt, add_events [EvFilter Category Verbosity false] p)).
Proof.
  eexists. split; [apply PickCategory_resolve|].
  rewrite UnlogPrivateImpl_emission. unfold emission.
  split; intros H.
  - apply passes_iff in H. by rewrite H.
  - rewrite <- passes_iff in H. apply not_true_is_false in H. by rewrite H.
Qed.

(** C3: the unconditional call, the boolean-guarded call with a true
    condition and the lazily-guarded call whose callable returns true
    filter, render and dispatch alike.  The guard comes first, then the
    threshold test, then the rendering, then the dispatch; a false guard
    stops the call before the test.  With the facility compiled out all
    three shapes do nothing. *)
Theorem C3_call_shapes_equivalent TCategory U (V : ELogVerbosity.t) fc p :
  let Category :=
    resolve (explicit_of (TUnlog.CategoryPicker U)) (ScopeStack p)
      (fallback_of (TUnlog.CategoryPicker U)) in
  let after_guard :=
    EvFilter Category V (passes V Category) ::
    (if passes V Category then
       EvFormat (ProcessFormatString fc) ::
       fan_out (TUnlog.TargetOptions U) Category V (ProcessFormatString fc)
     else []) in
  (exists p', FunctionName TCategory true U V fc p = Some (tt, p') /\
     Trace p' = Trace p ++ after_guard) /\
  FunctionName_Condition TCategory true U V true fc p = FunctionName TCategory true U V fc p /\
  (forall LambdaCondition,
     LambdaCondition tt = true ->
     FunctionName_LambdaCondition TCategory true U V LambdaCondition fc p
     = FunctionName TCategory true U V fc (add_events [EvLambdaCondition true] p) /\
     exists p', FunctionName_LambdaCondition TCategory true U V LambdaCondition fc p = Some (tt, p') /\
       Trace p' = Trace p ++ EvLambdaCondition true :: after_guard) /\
  FunctionName_Condition TCategory true U V false fc p = Some (tt, p) /\
  (forall LambdaCondition,
     LambdaCondition tt = false ->
     FunctionName_LambdaCondition TCategory true U V LambdaCondition fc p
     = Some (tt, add_events [EvLambdaCondition false] p)) /\
  (forall Condition LambdaCondition,
     FunctionName TCategory false U V fc p = Some (tt, p) /\
     FunctionName_Condition TCategory false U V Condition fc p = Some (tt, p) /\
     FunctionName_LambdaCondition TCategory false U V LambdaCondition fc p = Some (tt, p)).
Proof.
  intros Category after_guard. split_and!.
  - destruct (FunctionName_emission TCategory U V fc p) as (p' & H & Htr & _). eauto.
  - reflexivity.
  - intros f Hf.
    assert (FunctionName_LambdaCondition TCategory true U V f fc p
            = FunctionName TCategory true U V fc (add_events [EvLambdaCondition true] p)) as Heq.
    { unfold FunctionName_LambdaCondition, invoke, bind at 1. by rewrite Hf. }
    split; [done|]. rewrite Heq.
    destruct (FunctionName_emission TCategory U V fc (add_events [EvLambdaCondition true] p))
      as (p' & H & Htr & _).
    exists p'. split; [done|]. rewrite Htr. simpl. by rewrite <- app_assoc.
  - reflexivity.
  - intros f Hf. unfold FunctionName_LambdaCondition, invoke, bind. by rewrite Hf.
  - done.
Qed.

(** C4: constructing a scoped category guard pushes its category on the
    scope stack and destroying it pops that entry again, so code built
    from nested guarded blocks and log calls leaves the stack as it found
    it; log calls never change the stack; popping an empty stack is a
    failed assertion.  Pushing A then B and leaving the inner scope gives
    [A]; leaving the outer scope gives the empty stack. *)
Theorem C4_scoped_category_balanced :
  (forall C p, exists p',
     FUnlogScopedCategory_ctor C p = Some (tt, p') /\
     ScopeStack p' = ScopeStack p ++ [C]) /\
  (forall C stack p,
     ScopeStack p = stack ++ [C] ->
     exists p', FUnlogScopedCategory_dtor p = Some (tt, p') /\ ScopeStack p' = stack) /\
  (forall p, ScopeStack p = [] -> FUnlogScopedCategory_dtor p = None) /\
  (forall C Body p, exists p1 p2 p3,
     FUnlogScopedCategory_ctor C p = Some (tt, p1) /\
     ScopeStack p1 = ScopeStack p ++ [C] /\
     exec_all Body p1 = Some (tt, p2) /\
     ScopeStack p2 = ScopeStack p ++ [C] /\
     FUnlogScopedCategory_dtor p2 = Some (tt, p3) /\
     ScopeStack p3 = ScopeStack p) /\
  (forall s p, exists p', exec s p = Some (tt, p') /\ ScopeStack p' = ScopeStack p) /\
  (forall TSettings, keeps_stack (ApplyRuntimeSettings TSettings)) /\
  (forall Unlog b a V Message Args Argsf,
     keeps_stack (UNLOG true Unlog a V Message Args) /\
     keeps_stack (UNLOGF true Unlog a V Message Argsf) /\
     keeps_stack (UNCLOG true Unlog b a V Message Args) /\
     keeps_stack (UNCLOGF true Unlog b a V Message Argsf)) /\
  (forall A B p, ScopeStack p = [] -> exists pA pAB pA' p',
     FUnlogScopedCategory_ctor A p = Some (tt, pA) /\ ScopeStack pA = [A] /\
     FUnlogScopedCategory_ctor B pA = Some (tt, pAB) /\ ScopeStack pAB = [A; B] /\
     FUnlogScopedCategory_dtor pAB = Some (tt, pA') /\ ScopeStack pA' = [A] /\
     FUnlogScopedCategory_dtor pA' = Some (tt, p') /\ ScopeStack p' = []).
Proof.
  split_and!.
  - intros C p. destruct (ctor_spec C p) as (p' & H & S & _). eauto.
  - intros C stack p Hp. destruct (dtor_spec C stack p Hp) as (p' & H & S & _). eauto.
  - apply dtor_empty.
  - intros C Body p.
    destruct (ctor_spec C p) as (p1 & H1 & S1 & _).
    destruct (keeps_stack_exec_all Body p1) as (p2 & H2 & S2).
    destruct (dtor_spec C (ScopeStack p) p2) as (p3 & H3 & S3 & _); [congruence|].
    exists p1, p2, p3. split_and!; try done. congruence.
  - apply keeps_stack_exec.
  - intros TSettings p.
    destruct (ApplyRuntimeSettings_spec TSettings p) as (L & p' & H & _ & _ & _ & _ & _ & S & _).
    eauto.
  - intros Unlog b a V Message Args Argsf.
    split_and!; try destruct b; try apply keeps_stack_ret;
      apply (keeps_stack_FunctionName (TUnlog.CategoryPicker (GetSettings a Unlog))).
  - intros A B p Hp.
    destruct (ctor_spec A p) as (pA & H1 & S1 & _). rewrite Hp in S1. simpl in S1.
    destruct (ctor_spec B pA) as (pAB & H2 & S2 & _). rewrite S1 in S2. simpl in S2.
    destruct (dtor_spec B [A] pAB S2) as (pA' & H3 & S3 & _).
    destruct (dtor_spec A [] pA' S3) as (p' & H4 & S4 & _).
    exists pA, pAB, pA', p'. by split_and!.
Qed.

(** C5: one emission to a composite target calls each member sink exactly
    once, in the order the sinks were declared, and every sink is passed
    the same category, verbosity and rendered message. *)
Theorem C5_multi_target_fan_out TTargets Category Verbosity Message p :
  Call (Target.TMultiTarget TTargets) Category Verbosity Message p
  = Some (tt, add_events
                (fan_out (Target.TMultiTarget TTargets) Category Verbosity Message) p) /\
  (forallb Target.is_sink TTargets = true ->
   Call (Target.TMultiTarget TTargets) Category Verbosity Message p
   = Some (tt, add_events
                 (map (fun S => EvTargetCall S Category Verbosity Message) TTargets) p)).
Proof.
  split; [apply Call_fan_out|].
  intros H. rewrite Call_fan_out. unfold fan_out. by rewrite sinks_of_sinks.
Qed.

(** C6, as the code has it: the logger holds one settings pointer at a
    time; installing settings replaces that pointer and destroys nothing,
    every settings object constructed so far stays where it was; a
    settings object offers a default category ([LogGeneral] when none was
    set) and a list of runtime targets.  Log calls do not consult the
    installed settings: the category and the targets of a call are those
    of its flavor, so with an empty scope stack a call with no explicit
    category resolves to the flavor's own default category and dispatches
    to the flavor's own targets. *)
Theorem C6_settings_installation TSettings p :
  exists L p', ApplyRuntimeSettings TSettings p = Some (tt, p') /\
    Logger p' = Some L /\
    Settings L = Some (SettingsName TSettings) /\
    is_Some (SettingsStatics p' !! SettingsName TSettings) /\
    (SettingsStatics p !! SettingsName TSettings = None ->
     SettingsName TSettings <> SettingsName UnlogDefaultRuntimeSettings ->
     SettingsStatics p' !! SettingsName TSettings = Some (MakeSettings TSettings)) /\
    (forall k o, SettingsStatics p !! k = Some o -> SettingsStatics p' !! k = Some o) /\
    ScopeStack p' = ScopeStack p /\
    (forall D s, GetDefaultCategory (SetDefaultCategory D s) = D) /\
    GetDefaultCategory UnlogRuntimeSettingsBase_new = LogGeneral /\
    (forall T s, GetTargets (AddTarget T s) = GetTargets s ++ [T]) /\
    (forall TCategory U V fc, exists p'',
       FunctionName TCategory true U V fc p' = Some (tt, p'') /\
       Trace p'' = Trace p ++
         emission (TUnlog.TargetOptions U) fc V
           (resolve (explicit_of (TUnlog.CategoryPicker U)) (ScopeStack p)
              (fallback_of (TUnlog.CategoryPicker U)))) /\
    (forall TCategory T d V fc,
       ScopeStack p = [] ->
       exists p'',
         FunctionName TCategory true
           {| TUnlog.TargetOptions := T; TUnlog.CategoryPicker := TDeriveCategory d |}
           V fc p' = Some (tt, p'') /\
         Trace p'' = Trace p ++ emission T fc V d).
Proof.
  destruct (ApplyRuntimeSettings_spec TSettings p)
    as (L & p' & H & HL & HS & Hin & Hnew & Hkeep & Hst & Htr).
  exists L, p'. split_and!; try done.
  - intros TCategory U V fc. destruct (FunctionName_emission TCategory U V fc p') as (p'' & H2 & Htr2 & _).
    exists p''. split; [done|]. by rewrite Htr2, Htr, Hst.
  - intros TCategory T d V fc Hempty.
    destruct (FunctionName_emission TCategory
                {| TUnlog.TargetOptions := T; TUnlog.CategoryPicker := TDeriveCategory d |}
                V fc p') as (p'' & H2 & Htr2 & _).
    exists p''. split; [done|]. rewrite Htr2, Htr, Hst, Hempty. done.
Qed.

(** C7: a context flag is active exactly when its counter is above zero.
    Guards opened with true may be alive in any number and be destroyed in
    any order: each adds one on construction and takes one off on
    destruction, so the flag is active exactly while at least one such
    guard is alive, and destroying a live guard never trips the assertion.
    With two overlapping guards the flag stays active until both are
    closed.  Decrementing a counter that is zero is a failed assertion. *)
Theorem C7_context_flag_refcount :
  (forall c, IsActive c = true <-> (0 < Counter c)%Z) /\
  (forall ContextName c live,
     rtc ContextStep (UNLOG_CONTEXT ContextName, []) (c, live) ->
     (Z.of_nat (open_guards live) < 2 ^ 32)%Z ->
     Counter c = Z.of_nat (open_guards live) /\
     (IsActive c = true <-> exists g, g ∈ live /\ Value g = true) /\
     (forall g, g ∈ live -> is_Some (UnloggerScopedContext_dtor g c))) /\
  (forall c,
     (0 <= Counter c)%Z -> (Counter c + 2 < 2 ^ 32)%Z ->
     exists g1 c1 g2 c2 c3 c4,
       UnloggerScopedContext_ctor true c = (g1, c1) /\
       UnloggerScopedContext_ctor true c1 = (g2, c2) /\
       IsActive c2 = true /\
       UnloggerScopedContext_dtor g1 c2 = Some c3 /\
       IsActive c3 = true /\
       UnloggerScopedContext_dtor g2 c3 = Some c4 /\
       Counter c4 = Counter c /\
       IsActive c4 = IsActive c) /\
  (forall c, Counter c = 0%Z -> DecrementCounter c = None) /\
  (forall c, (Counter c > 0)%Z -> is_Some (DecrementCounter c)).
Proof.
  split_and!.
  - apply IsActive_Counter.
  - intros name c live Hreach Hbound.
    pose proof (reachable_counter name c live Hreach) as Hc.
    rewrite uint32_small in Hc by lia.
    split_and!; [done| |].
    + unfold IsActive. rewrite bool_decide_eq_true, Hc, <- open_guards_pos. lia.
    + intros g Hg. unfold UnloggerScopedContext_dtor, DecrementCounter.
      destruct (Value g) eqn:Hv; [|done].
      assert (0 < open_guards live) by (apply open_guards_pos; eauto).
      rewrite bool_decide_true by lia. done.
  - intros c H0 Hb.
    pose proof (IncrementCounter_Counter c H0 ltac:(lia)) as E1.
    pose proof (IncrementCounter_Counter (IncrementCounter c) ltac:(lia) ltac:(lia)) as E2.
    destruct (DecrementCounter_Counter (IncrementCounter (IncrementCounter c)))
      as (c3 & H3 & E3); [lia..|].
    destruct (DecrementCounter_Counter c3) as (c4 & H4 & E4); [lia..|].
    exists {| Value := true |}, (IncrementCounter c),
           {| Value := true |}, (IncrementCounter (IncrementCounter c)), c3, c4.
    split_and!; try done.
    + apply IsActive_Counter. lia.
    + apply IsActive_Counter. lia.
    + lia.
    + unfold IsActive. apply bool_decide_ext. lia.
  - intros c Hc. unfold DecrementCounter. by rewrite Hc.
  - intros c Hc. unfold DecrementCounter. by rewrite bool_decide_true.
Qed.

(** C8, as the code has it: with the facility compiled out the condition
    callable of a lazily-guarded call is never invoked.  With the facility
    enabled the callable is invoked exactly once, and when it returns
    false nothing else happens: no threshold test, no rendering and no
    dispatch. *)
Theorem C8_lazy_condition_invocations TCategory U (V : ELogVerbosity.t) LambdaCondition fc p :
  FunctionName_LambdaCondition TCategory false U V LambdaCondition fc p = Some (tt, p) /\
  (exists p', FunctionName_LambdaCondition TCategory true U V LambdaCondition fc p = Some (tt, p') /\
     invocations p' = S (invocations p)) /\
  (LambdaCondition tt = false ->
   FunctionName_LambdaCondition TCategory true U V LambdaCondition fc p
   = Some (tt, add_events [EvLambdaCondition false] p)).
Proof.
  split_and!.
  - reflexivity.
  - unfold FunctionName_LambdaCondition, invoke, bind at 1.
    destruct (LambdaCondition tt).
    + destruct (FunctionName_emission TCategory U V fc (add_events [EvLambdaCondition true] p))
        as (p' & H & Htr & _).
      exists p'. split; [exact H|]. unfold invocations. rewrite Htr. simpl.
      rewrite !List.filter_app, !length_app, no_invocation_in_emission. simpl. lia.
    + eexists. split; [reflexivity|]. rewrite invocations_add_events. simpl. lia.
  - intros Hf. unfold FunctionName_LambdaCondition, invoke, bind. by rewrite Hf.
Qed.

(** C9: the numbered renderer substitutes arguments by position, and an
    argument may be used any number of times: the template "{0}-{1}-{0}"
    with the arguments ("x", 7) renders "x-7-x". *)
Theorem C9_numbered_format :
  ProcessFormatString
    (OrderedArguments (TCHAR_text "{0}-{1}-{0}") [ArgString "x"; ArgInt 7]) = "x-7-x" /\
  (UTF8_TO_TCHAR "{0}-{1}-{0}" = "{0}-{1}-{0}" ->
   ProcessFormatString
     (OrderedArguments (char_text "{0}-{1}-{0}") [ArgString "x"; ArgInt 7]) = "x-7-x") /\
  (forall a0 a1,
     FString_Format "{0}-{1}-{0}" [a0; a1]
     = ArgToString a0 +:+ "-" +:+ ArgToString a1 +:+ "-" +:+ ArgToString a0) /\
  (forall a0 a1,
     FString_Format "{1}{1}" [a0; a1] = ArgToString a1 +:+ ArgToString a1) /\
  (forall Args l c ds rest a,
     brace_free l = true ->
     is_digit c = true ->
     all_digits ds = true ->
     Args !! digits_value 0 (String c ds) = Some a ->
     FString_Format (l +:+ "{" +:+ String c ds +:+ "}" +:+ rest) Args
     = l +:+ ArgToString a +:+ FString_Format rest Args).
Proof.
  split_and!.
  - vm_compute. reflexivity.
  - intros H. unfold ProcessFormatString, ResolveString. rewrite H.
    vm_compute. reflexivity.
  - intros a0 a1. unfold FString_Format. cbv -[ArgToString String.append].
    by rewrite append_nil_r.
  - intros a0 a1. unfold FString_Format. cbv -[ArgToString String.append].
    by rewrite append_nil_r.
  - intros Args l c ds rest a Hl Hc Hds Ha. unfold FString_Format.
    rewrite scan_literal by done. rewrite scan_placeholder by done.
    by rewrite Ha.
Qed.

(** C10: a category declared through UNLOG_CATEGORY is named after the
    declared identifier and has threshold Log; hence a call at Verbose or
    VeryVerbose that resolves to such a category renders nothing and
    dispatches nothing. *)
Theorem C10_declared_category_threshold CategoryName :
  GetName (UNLOG_CATEGORY CategoryName) = CategoryName /\
  GetVerbosity (UNLOG_CATEGORY CategoryName) = ELogVerbosity.Log /\
  (forall cfg fc Verbosity L p,
     PickCategory (TStaticConfiguration.CategoryPicker cfg) L
     = Some (UNLOG_CATEGORY CategoryName) ->
     Verbosity = ELogVerbosity.Verbose \/ Verbosity = ELogVerbosity.VeryVerbose ->
     UnlogPrivateImpl cfg fc Verbosity L p
     = Some (tt, add_events [EvFilter (UNLOG_CATEGORY CategoryName) Verbosity false] p)).
Proof.
  split_and!; [done|done|].
  intros cfg fc V L p HP HV.
  rewrite UnlogPrivateImpl_emission.
  rewrite PickCategory_resolve in HP. injection HP as ->.
  unfold emission. by destruct HV as [-> | ->].
Qed.

(** ** Further properties *)

(** *** Programs *)

Lemma events_of_SScope stack C Body :
  events_of stack (SScope C Body) = events_of_all (stack ++ [C]) Body.
Proof. simpl. induction Body as [|s' Body' IH]; [done|]. simpl. by rewrite IH. Qed.

Lemma exec_all_cons s ss : exec_all (s :: ss) = (run exec s; exec_all ss).
Proof. reflexivity. Qed.

(** A computation that completes, adds the events [es stack] to the
    trace, where [stack] is the scope stack it starts with, and leaves
    that stack as it was. *)
Lemma traces_exec_all (ss : list Stmt) :
  Forall (fun s => forall p, exists p', exec s p = Some (tt, p') /\
            Trace p' = Trace p ++ events_of (ScopeStack p) s /\
            ScopeStack p' = ScopeStack p) ss ->
  forall p, exists p', exec_all ss p = Some (tt, p') /\
    Trace p' = Trace p ++ events_of_all (ScopeStack p) ss /\
    ScopeStack p' = ScopeStack p.
Proof.
  induction 1 as [|s ss Hs _ IH]; intros p.
  - exists p. split_and!; try done. simpl. by rewrite app_nil_r.
  - destruct (Hs p) as (p1 & H1 & T1 & S1). destruct (IH p1) as (p2 & H2 & T2 & S2).
    exists p2. rewrite exec_all_cons, (bind_Some _ _ _ _ _ H1).
    split_and!; [done| |congruence].
    rewrite T2, T1, S1. simpl. by rewrite app_assoc.
Qed.

Lemma traces_exec s p :
  exists p', exec s p = Some (tt, p') /\
    Trace p' = Trace p ++ events_of (ScopeStack p) s /\
    ScopeStack p' = ScopeStack p.
Proof.
  revert p.
  induction s as [T U V fc | T U V b fc | T U V f fc | C Body IHB] using Stmt_ind_nested;
    intros p.
  - destruct (FunctionName_emission T U V fc p) as (p' & H & Htr & Hs & _). eauto.
  - destruct b.
    + destruct (FunctionName_emission T U V fc p) as (p' & H & Htr & Hs & _). eauto.
    + exists p. split_and!; try done. simpl. by rewrite app_nil_r.
  - simpl. unfold FunctionName_LambdaCondition, invoke, bind at 1.
    destruct (f tt).
    + destruct (FunctionName_emission (TUnlog.CategoryPicker U) U V fc
                  (add_events [EvLambdaCondition true] p)) as (p' & H & Htr & Hs & _).
      exists p'. split_and!; [exact H| |exact Hs].
      rewrite Htr. simpl. by rewrite <- app_assoc.
    + eexists. split_and!; done.
  - rewrite exec_SScope, events_of_SScope.
    destruct (ctor_spec C p) as (p1 & H1 & S1 & T1).
    destruct (traces_exec_all Body IHB p1) as (p2 & H2 & T2 & S2).
    destruct (dtor_spec C (ScopeStack p) p2) as (p3 & H3 & S3 & T3); [congruence|].
    exists p3. rewrite (bind_Some _ _ _ _ _ H1), (bind_Some _ _ _ _ _ H2).
    split_and!; [done| |done]. by rewrite T3, T2, T1, S1.
Qed.

Lemma invocations_in_call_events stack U V fc :
  List.filter is_invocation (call_events stack U V fc) = [].
Proof. apply no_invocation_in_emission. Qed.

Lemma invocations_in_events_of stack s :
  length (List.filter is_invocation (events_of stack s)) = lazy_calls s.
Proof.
  revert stack.
  induction s as [T U V fc | T U V b fc | T U V f fc | C Body IHB] using Stmt_ind_nested;
    intros stack.
  - cbn [events_of lazy_calls]. by rewrite invocations_in_call_events.
  - cbn [events_of lazy_calls].
    destruct b; [by rewrite invocations_in_call_events | done].
  - cbn [events_of lazy_calls List.filter is_invocation length].
    destruct (f tt); [by rewrite invocations_in_call_events | done].
  - cbn [events_of lazy_calls]. induction IHB as [|s' Body' Hs' _ IH]; [done|].
    rewrite List.filter_app, length_app, Hs', IH. done.
Qed.

(** X2: a program of log calls and scoped-category blocks completes, and
    its output is the one read off its nesting: each call is filtered and
    dispatched under the category resolved from the stack it started with
    extended by the categories of the blocks around the call; the guards
    themselves produce no output and the stack ends as it began. *)
Theorem X2_output_follows_nesting ss p :
  exists p', exec_all ss p = Some (tt, p') /\
    Trace p' = Trace p ++ events_of_all (ScopeStack p) ss /\
    ScopeStack p' = ScopeStack p.
Proof.
  apply traces_exec_all, Forall_forall.
  intros s _ p0. apply traces_exec.
Qed.

(** X3: running a program invokes one condition callable per
    lazily-guarded call in it, whatever the callables return and whatever
    the filters decide. *)
Theorem X3_one_invocation_per_lazy_call s p :
  exists p', exec s p = Some (tt, p') /\
    invocations p' = invocations p + lazy_calls s.
Proof.
  destruct (traces_exec s p) as (p' & H & Htr & _).
  exists p'. split; [done|]. unfold invocations.
  by rewrite Htr, List.filter_app, length_app, invocations_in_events_of.
Qed.

Lemma set_Logger_same L p : Logger p = Some L -> set_Logger L p = p.
Proof. destruct p. simpl. by intros ->. Qed.

Lemma pop_push C L : PopCategory (PushCategory C L) = Some L.
Proof.
  unfold PopCategory, PushCategory. simpl.
  rewrite bool_decide_true by (rewrite length_app; simpl; lia).
  rewrite removelast_last. by destruct L.
Qed.

Lemma framed_exec_all (ss : list Stmt) :
  Forall (fun s => forall L p, Logger p = Some L ->
            exec s p = Some (tt, add_events (events_of (PushedCategories L) s) p)) ss ->
  forall L p, Logger p = Some L ->
    exec_all ss p = Some (tt, add_events (events_of_all (PushedCategories L) ss) p).
Proof.
  induction 1 as [|s ss Hs _ IH]; intros L p HL.
  - simpl. unfold ret. by rewrite add_events_nil.
  - rewrite exec_all_cons, (bind_Some _ _ _ _ _ (Hs L p HL)).
    rewrite (IH L) by done. by rewrite add_events_app.
Qed.

Lemma framed_FunctionName T U V fc L p :
  Logger p = Some L ->
  FunctionName T true U V fc p
  = Some (tt, add_events (call_events (PushedCategories L) U V fc) p).
Proof.
  intros HL. unfold FunctionName. rewrite (bind_Some _ _ _ _ _ (Get_again L p HL)).
  apply UnlogPrivateImpl_emission.
Qed.

(** X4: once the logger exists, a program of log calls and scoped blocks
    changes nothing of the process but its trace: the logger (its
    settings pointer and scope stack) and every settings object are as
    before, and the trace has gained the program's output. *)
Theorem X4_program_only_appends_output s L p :
  Logger p = Some L ->
  exec s p = Some (tt, add_events (events_of (PushedCategories L) s) p).
Proof.
  revert L p.
  induction s as [T U V fc | T U V b fc | T U V f fc | C Body IHB] using Stmt_ind_nested;
    intros L p HL.
  - exact (framed_FunctionName T U V fc L p HL).
  - destruct b; [exact (framed_FunctionName T U V fc L p HL)|].
    simpl. unfold ret. by rewrite add_events_nil.
  - simpl. unfold FunctionName_LambdaCondition, invoke, bind at 1.
    destruct (f tt).
    + change (FunctionName (TUnlog.CategoryPicker U) true U V fc
                (add_events [EvLambdaCondition true] p) = 
              Some (tt, add_events (EvLambdaCondition true ::
                                    call_events (PushedCategories L) U V fc) p)).
      rewrite (framed_FunctionName _ U V fc L) by done.
      by rewrite add_events_app.
    + done.
  - rewrite exec_SScope, events_of_SScope.
    unfold FUnlogScopedCategory_ctor, Get_PushCategory.
    rewrite (bind_Some _ _ _ _ _ (bind_Some _ _ _ _ _ (Get_again L p HL))).
    rewrite (bind_Some _ _ _ _ _
               (framed_exec_all Body IHB (PushCategory C L)
                  (set_Logger (PushCategory C L) p) eq_refl)).
    unfold FUnlogScopedCategory_dtor, Get_PopCategory.
    rewrite (bind_Some _ _ _ _ _
               (Get_again (PushCategory C L)
                  (add_events _ (set_Logger (PushCategory C L) p)) eq_refl)).
    unfold bind, lift_check. rewrite pop_push. f_equal. f_equal.
    destruct p. unfold add_events, set_Logger. simpl in *. by rewrite HL.
Qed.


(** *** Named functions and macros *)

Lemma FunctionName_on_category T U V fc p c :
  resolve (explicit_of (TUnlog.CategoryPicker U)) (ScopeStack p)
    (fallback_of (TUnlog.CategoryPicker U)) = c ->
  exists p', FunctionName T true U V fc p = Some (tt, p') /\
    Trace p' = Trace p ++ emission (TUnlog.TargetOptions U) fc V c.
Proof.
  intros <-. destruct (FunctionName_emission T U V fc p) as (p' & H & Htr & _). eauto.
Qed.

(** X5: on a category declared through UNLOG_CATEGORY, the functions Log,
    Warn, Error and Display always render and dispatch, at the verbosities
    Log, Warning, Error and Display; Verbose and VeryVerbose never do. *)
Theorem X5_named_functions_on_declared_category T U fc p CategoryName :
  resolve (explicit_of (TUnlog.CategoryPicker U)) (ScopeStack p)
    (fallback_of (TUnlog.CategoryPicker U)) = UNLOG_CATEGORY CategoryName ->
  let c := UNLOG_CATEGORY CategoryName in
  let emitted V :=
    Trace p ++ [EvFilter c V true; EvFormat (ProcessFormatString fc)] ++
    fan_out (TUnlog.TargetOptions U) c V (ProcessFormatString fc) in
  let quiet V := Trace p ++ [EvFilter c V false] in
  (exists p', Unlog_Log T true U fc p = Some (tt, p') /\
     Trace p' = emitted ELogVerbosity.Log) /\
  (exists p', Unlog_Warn T true U fc p = Some (tt, p') /\
     Trace p' = emitted ELogVerbosity.Warning) /\
  (exists p', Unlog_Error T true U fc p = Some (tt, p') /\
     Trace p' = emitted ELogVerbosity.Error) /\
  (exists p', Unlog_Display T true U fc p = Some (tt, p') /\
     Trace p' = emitted ELogVerbosity.Display) /\
  (exists p', Unlog_Verbose T true U fc p = Some (tt, p') /\
     Trace p' = quiet ELogVerbosity.Verbose) /\
  (exists p', Unlog_VeryVerbose T true U fc p = Some (tt, p') /\
     Trace p' = quiet ELogVerbosity.VeryVerbose).
Proof.
  intros Hc c emitted quiet.
  split_and!;
    match goal with
    | |- exists p', ?f T true U fc p = _ /\ _ =>
        unfold f;
        match goal with
        | |- exists p', FunctionName _ _ _ ?V _ _ = _ /\ _ =>
            destruct (FunctionName_on_category T U V fc p _ Hc) as (p' & H & Htr);
            exists p'; split; [exact H | exact Htr]
        end
    end.
Qed.

(** X6: the macros.  With no first argument [UNLOG] is the function call
    on the logger named [Unlog], with the text wrapped by [TEXT()]; with a
    category it logs under that category, whatever the scope stack and
    [Unlog]'s own picker, to [Unlog]'s targets; with a logger it is that
    logger's call and [Unlog] plays no part.  [UNCLOG] with a true
    condition is [UNLOG], with a false one it leaves the process untouched;
    compiled out, every macro leaves the process untouched. *)
Theorem X6_macros Unlog (V : ELogVerbosity.t) Message Args Argsf p :
  (forall T E,
     UNLOG E Unlog MacroArgs_empty V Message Args
     = FunctionName T E Unlog V (OrderedArguments (TCHAR_text Message) Args) /\
     UNLOGF E Unlog MacroArgs_empty V Message Argsf
     = FunctionName T E Unlog V (PrintfArguments Message Argsf)) /\
  (forall c, exists p',
     UNLOG true Unlog (MacroArgs_category c) V Message Args p = Some (tt, p') /\
     Trace p' = Trace p ++
       emission (TUnlog.TargetOptions Unlog)
         (OrderedArguments (TCHAR_text Message) Args) V c) /\
  (forall E U,
     UNLOG E Unlog (MacroArgs_logger U) V Message Args
     = UNLOG E U MacroArgs_empty V Message Args) /\
  (forall E a,
     UNCLOG E Unlog true a V Message Args = UNLOG E Unlog a V Message Args /\
     UNCLOGF E Unlog true a V Message Argsf = UNLOGF E Unlog a V Message Argsf /\
     UNCLOG E Unlog false a V Message Args p = Some (tt, p) /\
     UNCLOGF E Unlog false a V Message Argsf p = Some (tt, p)) /\
  (forall b a,
     UNLOG false Unlog a V Message Args p = Some (tt, p) /\
     UNLOGF false Unlog a V Message Argsf p = Some (tt, p) /\
     UNCLOG false Unlog b a V Message Args p = Some (tt, p) /\
     UNCLOGF false Unlog b a V Message Argsf p = Some (tt, p)).
Proof.
  split_and!.
  - intros T []; by split.
  - intros c.
    destruct (FunctionName_emission (TSpecificCategory c)
                (GetSettings (MacroArgs_category c) Unlog) V
                (OrderedArguments (TCHAR_text Message) Args) p) as (p' & H & Htr & _).
    exists p'. split; [exact H | exact Htr].
  - by intros [] U.
  - intros [] a; by split_and!.
  - intros b a. by split_and!.
Qed.

(** *** The singletons *)

(** X7: [Unlogger::Get] creates the logger on first use and hands out the
    same logger afterwards: a second call returns what the first returned
    and changes nothing.  The logger created has an empty scope stack and
    points to the default runtime settings, which are constructed with it;
    an existing logger is returned as it is. *)
Theorem X7_Get_singleton p :
  exists L p1,
    Get p = Some (L, p1) /\
    Get p1 = Some (L, p1) /\
    Trace p1 = Trace p /\
    (Logger p = None ->
     L = {| Settings := Some (SettingsName UnlogDefaultRuntimeSettings);
            PushedCategories := [] |} /\
     is_Some (SettingsStatics p1 !! SettingsName UnlogDefaultRuntimeSettings) /\
     (SettingsStatics p !! SettingsName UnlogDefaultRuntimeSettings = None ->
      exists o,
        SettingsStatics p1 !! SettingsName UnlogDefaultRuntimeSettings = Some o /\
        GetDefaultCategory o = LogGeneral /\ GetTargets o = [])) /\
    (forall L0, Logger p = Some L0 -> L = L0 /\ p1 = p).
Proof.
  unfold Get at 1. destruct (Logger p) as [L0|] eqn:HL.
  - exists L0, p. split_and!; try done.
    + by apply Get_again.
    + by intros L1 [= <-].
  - unfold CreateLogger, ApplyRuntimeSettingsInternal, bind, Settings_Static, ret.
    destruct (SettingsStatics p !! _) as [o|] eqn:Ho; simpl.
    + eexists _, _. by split_and!.
    + eexists _, _. split_and!; try done.
      intros _. split_and!; try done.
      * simpl. rewrite lookup_insert_eq. eauto.
      * intros _. simpl. rewrite lookup_insert_eq. eauto.
Qed.

(** X8: [T::Static()] constructs the settings object of a type once: the
    first use runs [PopulateSettings] on a fresh object and stores it, a
    later use returns the stored object and changes nothing; no other
    settings object, the logger or the trace is touched. *)
Theorem X8_settings_static_once TSettings p :
  exists p1,
    Settings_Static TSettings p = Some (SettingsName TSettings, p1) /\
    Settings_Static TSettings p1 = Some (SettingsName TSettings, p1) /\
    (SettingsStatics p !! SettingsName TSettings = None ->
     SettingsStatics p1 !! SettingsName TSettings = Some (MakeSettings TSettings)) /\
    (forall o, SettingsStatics p !! SettingsName TSettings = Some o -> p1 = p) /\
    (forall k, k <> SettingsName TSettings ->
       SettingsStatics p1 !! k = SettingsStatics p !! k) /\
    Logger p1 = Logger p /\ Trace p1 = Trace p.
Proof.
  unfold Settings_Static at 1.
  destruct (SettingsStatics p !! SettingsName TSettings) as [o|] eqn:Ho.
  - exists p. split_and!; try done. unfold Settings_Static. by rewrite Ho.
  - eexists. split_and!; try done.
    + unfold Settings_Static. simpl. by rewrite lookup_insert_eq.
    + intros _. simpl. by rewrite lookup_insert_eq.
    + intros k Hk. simpl. by rewrite lookup_insert_ne.
Qed.

Lemma ApplyRuntimeSettings_again TSettings L p :
  Logger p = Some L ->
  Settings L = Some (SettingsName TSettings) ->
  is_Some (SettingsStatics p !! SettingsName TSettings) ->
  ApplyRuntimeSettings TSettings p = Some (tt, p).
Proof.
  intros HL HS [o Ho]. unfold ApplyRuntimeSettings.
  rewrite (bind_Some _ _ _ _ _ (Get_again L p HL)).
  unfold ApplyRuntimeSettingsInternal, bind, Settings_Static, ret. rewrite Ho.
  f_equal. f_equal. rewrite <- HS.
  replace {| Settings := Settings L; PushedCategories := PushedCategories L |} with L
    by by destruct L.
  by apply set_Logger_same.
Qed.

(** X9: installing runtime settings is idempotent, and of two
    installations the later one is in force: after installing [T1] and
    then [T2] the logger points to [T2]'s settings, [T1]'s object is still
    there, and the scope stack and the trace are as they were. *)
Theorem X9_settings_installation_composes T1 T2 p :
  (run ApplyRuntimeSettings T1; ApplyRuntimeSettings T1) p = ApplyRuntimeSettings T1 p /\
  exists L p',
    (run ApplyRuntimeSettings T1; ApplyRuntimeSettings T2) p = Some (tt, p') /\
    Logger p' = Some L /\
    Settings L = Some (SettingsName T2) /\
    is_Some (SettingsStatics p' !! SettingsName T1) /\
    is_Some (SettingsStatics p' !! SettingsName T2) /\
    ScopeStack p' = ScopeStack p /\ Trace p' = Trace p.
Proof.
  destruct (ApplyRuntimeSettings_spec T1 p)
    as (L1 & p1 & H1 & HL1 & HS1 & Hin1 & _ & _ & Hst1 & Htr1).
  split.
  - rewrite (bind_Some _ _ _ _ _ H1), H1.
    by apply (ApplyRuntimeSettings_again T1 L1).
  - destruct (ApplyRuntimeSettings_spec T2 p1)
      as (L2 & p2 & H2 & HL2 & HS2 & Hin2 & _ & Hkeep & Hst2 & Htr2).
    exists L2, p2. rewrite (bind_Some _ _ _ _ _ H1).
    split_and!; try done; try congruence.
    destruct Hin1 as [o Ho]. exists o. by apply Hkeep.
Qed.

(** *** Settings bodies and builder chains *)

Lemma populate_spec ops s :
  GetTargets (populate ops s) = GetTargets s ++ added_targets ops /\
  DefaultCategory (populate ops s)
  = match last (set_categories ops) with
    | Some c => Some c
    | None => DefaultCategory s
    end.
Proof.
  revert s. induction ops as [|op ops IH]; intros s.
  - simpl. by rewrite app_nil_r.
  - destruct (IH (apply_op s op)) as [HT HD]. unfold populate in *. simpl.
    rewrite HT, HD. destruct op as [t|c]; simpl.
    + unfold GetTargets, added_targets. simpl. by rewrite <- app_assoc.
    + unfold set_categories. simpl. rewrite last_cons. by destruct (last _).
Qed.

(** X10: whatever sequence of [AddTarget] and [SetDefaultCategory] calls a
    [PopulateSettings] body makes, the settings object built from it lists
    the added targets in the order of the calls, and its default category
    is the one of the last [SetDefaultCategory], or [LogGeneral] when the
    body has none. *)
Theorem X10_populated_settings Name ops :
  let o := MakeSettings {| SettingsName := Name; PopulateSettings := populate ops |} in
  GetTargets o = added_targets ops /\
  GetDefaultCategory o
  = match last (set_categories ops) with
    | Some c => c
    | None => LogGeneral
    end.
Proof.
  simpl. unfold MakeSettings. simpl.
  destruct (populate_spec ops UnlogRuntimeSettingsBase_new) as [HT HD].
  split; [exact HT|]. unfold GetDefaultCategory. rewrite HD.
  by destruct (last _).
Qed.

Lemma build_picker bs U1 U2 :
  TUnlog.CategoryPicker U1 = TUnlog.CategoryPicker U2 ->
  TUnlog.CategoryPicker (build U1 bs)
  = TUnlog.CategoryPicker
      (build U2 (List.filter (fun b => negb (is_target_builder b)) bs)).
Proof.
  revert U1 U2. induction bs as [|b bs IH]; intros U1 U2 HU; [done|].
  destruct b; simpl; apply IH; simpl; done.
Qed.

Lemma build_targets bs U1 U2 :
  TUnlog.TargetOptions U1 = TUnlog.TargetOptions U2 ->
  TUnlog.TargetOptions (build U1 bs)
  = TUnlog.TargetOptions (build U2 (List.filter is_target_builder bs)).
Proof.
  revert U1 U2. induction bs as [|b bs IH]; intros U1 U2 HU; [done|].
  destruct b; simpl; apply IH; simpl; by rewrite ?HU.
Qed.

Lemma build_app U bs1 bs2 : build U (bs1 ++ bs2) = build (build U bs1) bs2.
Proof. unfold build. by rewrite foldl_app. Qed.

Lemma build_target_builders_keep_picker bs U :
  forallb is_target_builder bs = true ->
  TUnlog.CategoryPicker (build U bs) = TUnlog.CategoryPicker U.
Proof.
  intros Hbs. rewrite (build_picker bs U U eq_refl).
  replace (List.filter (fun b => negb (is_target_builder b)) bs) with (@nil Builder);
    [done|].
  induction bs as [|b bs IH]; [done|]. simpl in *.
  apply andb_prop in Hbs as [Hb Hbs]. rewrite Hb. simpl. by apply IH.
Qed.

(** X11: in a builder chain the target builders and the category builders
    do not interfere: the picker of the flavor built is that of the chain
    with its target builders left out, and its targets are those of the
    chain with its category builders left out.  So a category chosen
    with [WithCategory] or [WithDefaultCategory] is kept by any target
    builders that follow. *)
Theorem X11_builders_independent U bs :
  TUnlog.CategoryPicker (build U bs)
  = TUnlog.CategoryPicker
      (build U (List.filter (fun b => negb (is_target_builder b)) bs)) /\
  TUnlog.TargetOptions (build U bs)
  = TUnlog.TargetOptions (build U (List.filter is_target_builder bs)) /\
  (forall c tbs,
     forallb is_target_builder tbs = true ->
     TUnlog.CategoryPicker (build U (bs ++ BWithCategory c :: tbs)) = TSpecificCategory c /\
     TUnlog.CategoryPicker (build U (bs ++ BWithDefaultCategory c :: tbs))
     = TDeriveCategory c).
Proof.
  split_and!.
  - by apply build_picker.
  - by apply build_targets.
  - intros c tbs Htbs. rewrite !build_app.
    split; simpl; by rewrite (build_target_builders_keep_picker tbs).
Qed.

(** *** Composite targets *)

Lemma sinks_TMultiTarget ts :
  Target.sinks (Target.TMultiTarget ts) = flat_map Target.sinks ts.
Proof. simpl. induction ts as [|T ts IH]; [done|]. simpl. by rewrite IH. Qed.

Lemma fan_out_app T ts c v m :
  fan_out (Target.TMultiTarget (T :: ts)) c v m
  = fan_out T c v m ++ fan_out (Target.TMultiTarget ts) c v m.
Proof.
  unfold fan_out. rewrite (sinks_TMultiTarget (T :: ts)), (sinks_TMultiTarget ts).
  simpl. by rewrite map_app.
Qed.

Lemma sinks_nested tss :
  Target.sinks (Target.TMultiTarget (map Target.TMultiTarget tss))
  = Target.sinks (Target.TMultiTarget (concat tss)).
Proof.
  rewrite !sinks_TMultiTarget.
  induction tss as [|ts' tss IH]; [done|].
  cbn [map concat flat_map]. by rewrite sinks_TMultiTarget, flat_map_app, IH.
Qed.

(** X12: a flavor extended with [AddTarget] dispatches first to the sinks
    it already had, in their order, and then to the added ones; and a
    composite of composites dispatches exactly as the one flat composite
    of all their members. *)
Theorem X12_added_targets_come_last U ts tss c v m p :
  Call (TUnlog.TargetOptions (TUnlog.AddTarget ts U)) c v m p
  = Some (tt, add_events
                (fan_out (TUnlog.TargetOptions U) c v m ++
                 fan_out (Target.TMultiTarget ts) c v m) p) /\
  Call (Target.TMultiTarget (map Target.TMultiTarget tss)) c v m p
  = Call (Target.TMultiTarget (concat tss)) c v m p.
Proof.
  split.
  - rewrite Call_fan_out. simpl TUnlog.TargetOptions. by rewrite fan_out_app.
  - rewrite !Call_fan_out. unfold fan_out. by rewrite sinks_nested.
Qed.

(** *** The built-in targets *)

Lemma opens_HostCalls T c (v : ELogVerbosity.t) m :
  length (List.filter is_OpenMessageLog (HostCalls T c v m))
  = if bool_decide (v = ELogVerbosity.Error)
    then length (List.filter is_MessageLog (Target.sinks T)) else 0.
Proof.
  induction T as [ | | t col | n | ts IHts] using Target_ind_nested.
  - simpl. by case_bool_decide.
  - simpl. by case_bool_decide.
  - simpl. by case_bool_decide.
  - simpl. by case_bool_decide.
  - rewrite sinks_TMultiTarget. cbn [HostCalls].
    induction IHts as [|T' ts' HT' _ IH]; [by case_bool_decide|].
    cbn [flat_map]. rewrite !List.filter_app, !length_app, HT', IH.
    by case_bool_decide.
Qed.


(** X14: a dispatch opens the message log once per MessageLog sink when
    its verbosity is Error and never otherwise, which is exactly when the
    message it lists has Error severity; Warning is listed as Warning and
    every other verbosity, Fatal among them, as Info. *)
Theorem X14_message_log_opens_on_Error T c (v : ELogVerbosity.t) m :
  length (List.filter is_OpenMessageLog (HostCalls T c v m))
  = (if bool_decide (v = ELogVerbosity.Error)
     then length (List.filter is_MessageLog (Target.sinks T)) else 0) /\
  (VerbosityToSeverity v = EMessageSeverity.Error <-> v = ELogVerbosity.Error) /\
  (VerbosityToSeverity v = EMessageSeverity.Warning <-> v = ELogVerbosity.Warning) /\
  (VerbosityToSeverity v = EMessageSeverity.Info <->
   v <> ELogVerbosity.Error /\ v <> ELogVerbosity.Warning) /\
  VerbosityToSeverity ELogVerbosity.Fatal = EMessageSeverity.Info.
Proof.
  split; [apply opens_HostCalls|].
  unfold VerbosityToSeverity.
  split_and!; try done; repeat case_bool_decide; subst; split; try done;
    try (intros [? ?]; done); try (intros; exfalso; done).
Qed.

(** *** Context flags *)

(** X15: of [WhenActive] and [WhenNotActive] exactly one runs its
    functor, and which one follows the guards: after any sequence of
    guard constructions and destructions, [WhenActive] runs its functor
    and [WhenNotActive] does not while some guard opened with true is
    alive, and the reverse holds while none is. *)
Theorem X15_WhenActive_follows_guards ContextName c live :
  rtc ContextStep (UNLOG_CONTEXT ContextName, []) (c, live) ->
  (Z.of_nat (open_guards live) < 2 ^ 32)%Z ->
  forall (X : Type) (Func : X -> X) (x : X),
    ((exists g, g ∈ live /\ Value g = true) ->
     WhenActive c Func x = Func x /\ WhenNotActive c Func x = x) /\
    ((forall g, g ∈ live -> Value g = false) ->
     WhenActive c Func x = x /\ WhenNotActive c Func x = Func x).
Proof.
  intros Hreach Hbound X Func x.
  pose proof (reachable_counter ContextName c live Hreach) as Hc.
  rewrite uint32_small in Hc by lia.
  unfold WhenActive, WhenNotActive, IsActive. split.
  - intros Hg. apply open_guards_pos in Hg.
    by rewrite bool_decide_true by lia.
  - intros Hnone.
    assert (open_guards live = 0) as H0.
    { destruct (open_guards live) eqn:E; [done|].
      assert (0 < open_guards live) as Hpos by lia.
      apply open_guards_pos in Hpos as (g & Hg & Hv).
      rewrite (Hnone g Hg) in Hv. done. }
    by rewrite bool_decide_false by lia.
Qed.

(** X16: a scoped context guard gives back what it took: constructing a
    guard, with either value, and destroying it returns the flag to the
    state it was in, provided the counter had room for one more. *)
Theorem X16_scoped_context_round_trip InValue c :
  (0 <= Counter c < 2 ^ 32 - 1)%Z ->
  UnloggerScopedContext_dtor
    (UnloggerScopedContext_ctor InValue c).1
    (UnloggerScopedContext_ctor InValue c).2 = Some c.
Proof.
  intros Hc. destruct InValue; simpl; [|done].
  unfold UnloggerScopedContext_dtor, DecrementCounter, IncrementCounter. simpl.
  rewrite (uint32_small (Counter c + 1)) by lia.
  rewrite bool_decide_true by lia.
  replace (Counter c + 1 - 1)%Z with (Counter c) by lia.
  rewrite uint32_small by lia. by destruct c.
Qed.

(** X17: the counter is 32 bits wide.  At its largest value one more
    guard wraps it to zero: the flag reads inactive while the guard is
    alive, and the guard's destructor fails its assertion. *)
Theorem X17_counter_wraps c :
  Counter c = (2 ^ 32 - 1)%Z ->
  IsActive c = true /\
  IsActive (UnloggerScopedContext_ctor true c).2 = false /\
  UnloggerScopedContext_dtor
    (UnloggerScopedContext_ctor true c).1
    (UnloggerScopedContext_ctor true c).2 = None.
Proof.
  intros Hc. unfold IsActive, UnloggerScopedContext_dtor, DecrementCounter. simpl.
  rewrite Hc. by vm_compute.
Qed.

(** *** The installation identifier *)




End Core.

(** ** Closed instances *)

Lemma C1_filter_gates_witness :
  UnlogPrivateImpl ascii_UTF8_TO_TCHAR unit plain_Printf
    (TUnlog.Configuration TUnlog.Default)
    (OrderedArguments unit (TCHAR_text "A") []) ELogVerbosity.Log
    Unlogger_default Process_start
  = Some (tt, add_events
                [EvFilter LogGeneral ELogVerbosity.Log true; EvFormat "A";
                 EvTargetCall Target.UELog LogGeneral ELogVerbosity.Log "A"]
                Process_start) /\
  UnlogPrivateImpl ascii_UTF8_TO_TCHAR unit plain_Printf
    (TUnlog.Configuration TUnlog.Default)
    (OrderedArguments unit (TCHAR_text "A") []) ELogVerbosity.Verbose
    Unlogger_default Process_start
  = Some (tt, add_events [EvFilter LogGeneral ELogVerbosity.Verbose false] Process_start).
Proof.
  split.
  - destruct (C1_filter_gates_format_and_dispatch ascii_UTF8_TO_TCHAR unit plain_Printf
                (TUnlog.Configuration TUnlog.Default)
                (OrderedArguments unit (TCHAR_text "A") []) ELogVerbosity.Log
                Unlogger_default Process_start) as (c & Hc & Hpass & _).
    injection Hc as <-. apply Hpass. split; [by vm_compute | done].
  - destruct (C1_filter_gates_format_and_dispatch ascii_UTF8_TO_TCHAR unit plain_Printf
                (TUnlog.Configuration TUnlog.Default)
                (OrderedArguments unit (TCHAR_text "A") []) ELogVerbosity.Verbose
                Unlogger_default Process_start) as (c & Hc & _ & Hfail).
    injection Hc as <-. apply Hfail. intros [Hle _]. by vm_compute in Hle.
Defined.

Lemma C3_call_shapes_witness :
  FunctionName_LambdaCondition ascii_UTF8_TO_TCHAR unit plain_Printf
    (TUnlog.CategoryPicker TUnlog.Default) true TUnlog.Default
    ELogVerbosity.Warning (fun _ => true) (PrintfArguments unit "Y" tt) Process_start
  = FunctionName ascii_UTF8_TO_TCHAR unit plain_Printf
    (TUnlog.CategoryPicker TUnlog.Default) true TUnlog.Default
      ELogVerbosity.Warning (PrintfArguments unit "Y" tt)
      (add_events [EvLambdaCondition true] Process_start) /\
  FunctionName_LambdaCondition ascii_UTF8_TO_TCHAR unit plain_Printf
    (TUnlog.CategoryPicker TUnlog.Default) true TUnlog.Default
    ELogVerbosity.Warning (fun _ => false) (PrintfArguments unit "Y" tt) Process_start
  = Some (tt, add_events [EvLambdaCondition false] Process_start).
Proof.
  destruct (C3_call_shapes_equivalent ascii_UTF8_TO_TCHAR unit plain_Printf
              (TUnlog.CategoryPicker TUnlog.Default) TUnlog.Default
              ELogVerbosity.Warning (PrintfArguments unit "Y" tt) Process_start)
    as (_ & _ & Htrue & _ & Hfalse & _).
  split.
  - apply (Htrue (fun _ => true)). reflexivity.
  - apply (Hfalse (fun _ => false)). reflexivity.
Defined.

Lemma C4_scoped_category_witness :
  exists p',
    FUnlogScopedCategory_dtor
      (set_Logger {| Settings := None; PushedCategories := [CategoryA; CategoryB] |}
         Process_start) = Some (tt, p') /\
    ScopeStack p' = [CategoryA].
Proof.
  destruct (C4_scoped_category_balanced ascii_UTF8_TO_TCHAR unit plain_Printf)
    as (_ & Hpop & _).
  apply (Hpop CategoryB [CategoryA]). reflexivity.
Defined.

Lemma C5_multi_target_witness :
  Call (Target.TMultiTarget [Target.UELog; Target.MessageLog; Target.GameScreen])
    CategoryA ELogVerbosity.Error "X" Process_start
  = Some (tt, add_events
                [EvTargetCall Target.UELog CategoryA ELogVerbosity.Error "X";
                 EvTargetCall Target.MessageLog CategoryA ELogVerbosity.Error "X";
                 EvTargetCall Target.GameScreen CategoryA ELogVerbosity.Error "X"]
                Process_start).
Proof.
  apply (C5_multi_target_fan_out
           [Target.UELog; Target.MessageLog; Target.GameScreen]
           CategoryA ELogVerbosity.Error "X" Process_start).
  reflexivity.
Defined.

Lemma C6_settings_installation_witness :
  exists p',
    ApplyRuntimeSettings MySettings Process_start = Some (tt, p') /\
    SettingsStatics p' !! SettingsName MySettings = Some (MakeSettings MySettings) /\
    exists p'',
      FunctionName ascii_UTF8_TO_TCHAR unit plain_Printf
    (TUnlog.CategoryPicker TUnlog.Default) true TUnlog.Default
        ELogVerbosity.Log (OrderedArguments unit (TCHAR_text "A") []) p' = Some (tt, p'') /\
      Trace p'' =
        [EvFilter LogGeneral ELogVerbosity.Log true; EvFormat "A";
         EvTargetCall Target.UELog LogGeneral ELogVerbosity.Log "A"].
Proof.
  destruct (C6_settings_installation ascii_UTF8_TO_TCHAR unit plain_Printf
              MySettings Process_start)
    as (L & p' & H & _ & _ & _ & Hnew & _ & _ & _ & _ & _ & _ & Hcall).
  exists p'. split_and!; [exact H| |].
  - apply Hnew; [reflexivity | by vm_compute].
  - apply (Hcall (TDeriveCategory LogGeneral) Target.UELog LogGeneral ELogVerbosity.Log
             (OrderedArguments unit (TCHAR_text "A") [])).
    reflexivity.
Defined.

Lemma C7_context_flag_witness :
  exists g1 c1 g2 c2 c3 c4,
    UnloggerScopedContext_ctor true (UNLOG_CONTEXT "InEditor") = (g1, c1) /\
    UnloggerScopedContext_ctor true c1 = (g2, c2) /\
    IsActive c2 = true /\
    UnloggerScopedContext_dtor g1 c2 = Some c3 /\
    IsActive c3 = true /\
    UnloggerScopedContext_dtor g2 c3 = Some c4 /\
    Counter c4 = Counter (UNLOG_CONTEXT "InEditor") /\
    IsActive c4 = IsActive (UNLOG_CONTEXT "InEditor").
Proof.
  destruct C7_context_flag_refcount as (_ & _ & Htwo & _).
  apply (Htwo (UNLOG_CONTEXT "InEditor")); by vm_compute.
Defined.

Lemma C8_lazy_condition_witness :
  FunctionName_LambdaCondition ascii_UTF8_TO_TCHAR unit plain_Printf
    (TUnlog.CategoryPicker TUnlog.Default) true TUnlog.Default
    ELogVerbosity.Warning (fun _ => false) (OrderedArguments unit (char_text "Y") [])
    Process_start
  = Some (tt, add_events [EvLambdaCondition false] Process_start).
Proof.
  destruct (C8_lazy_condition_invocations ascii_UTF8_TO_TCHAR unit plain_Printf
              (TUnlog.CategoryPicker TUnlog.Default) TUnlog.Default ELogVerbosity.Warning (fun _ => false)
              (OrderedArguments unit (char_text "Y") []) Process_start)
    as (_ & _ & Hfalse).
  apply Hfalse. reflexivity.
Defined.

Lemma C9_numbered_format_witness :
  ProcessFormatString ascii_UTF8_TO_TCHAR unit plain_Printf
    (OrderedArguments unit (char_text "{0}-{1}-{0}") [ArgString "x"; ArgInt 7]) = "x-7-x".
Proof.
  destruct (C9_numbered_format ascii_UTF8_TO_TCHAR unit plain_Printf) as (_ & Hchar & _).
  apply Hchar. reflexivity.
Defined.

Lemma C10_declared_category_witness :
  UnlogPrivateImpl ascii_UTF8_TO_TCHAR unit plain_Printf
    (TUnlog.Configuration (TUnlog.WithCategory (UNLOG_CATEGORY "TestCategory") TUnlog.Default))
    (OrderedArguments unit (TCHAR_text "D") []) ELogVerbosity.Verbose
    Unlogger_default Process_start
  = Some (tt, add_events
                [EvFilter (UNLOG_CATEGORY "TestCategory") ELogVerbosity.Verbose false]
                Process_start).
Proof.
  destruct (C10_declared_category_threshold ascii_UTF8_TO_TCHAR unit plain_Printf
              "TestCategory") as (_ & _ & Hquiet).
  apply Hquiet; [reflexivity | by left].
Defined.

(** ** Where the code departs from the spec *)

(** C2: resolution is explicit > top of the scope stack > flavor default,
    so a call that names a category resolves to it.  The code does so for
    a flavor built with [WithCategory] and for a macro call with a
    category argument, whatever the stack holds.  It does not for the
    call [Unlog::Log<TestCategory>("A")] of the source's [CompileTest]
    (with [Unlog = TUnlog<>]): with an empty scope stack that call is
    filtered and dispatched under the flavor default [LogGeneral], and
    inside a scope of [CategoryA] under [CategoryA]. *)
Theorem C2_template_category_ignored :
  let TestCategory := UNLOG_CATEGORY "TestCategory" in
  let Log_TestCategory :=
    FunctionName ascii_UTF8_TO_TCHAR unit plain_Printf
      (UnlogCategoryCRTP TestCategory) true TUnlog.Default
      ELogVerbosity.Log (OrderedArguments unit (char_text "A") []) in
  (fun r => Trace r.2) <$> Log_TestCategory Process_start
  = Some [EvFilter LogGeneral ELogVerbosity.Log true; EvFormat "A";
          EvTargetCall Target.UELog LogGeneral ELogVerbosity.Log "A"] /\
  (fun r => Trace r.2) <$>
    (run FUnlogScopedCategory_ctor CategoryA; Log_TestCategory) Process_start
  = Some [EvFilter CategoryA ELogVerbosity.Log true; EvFormat "A";
          EvTargetCall Target.UELog CategoryA ELogVerbosity.Log "A"] /\
  (fun r => Trace r.2) <$>
    (run FUnlogScopedCategory_ctor CategoryA;
     UNLOG ascii_UTF8_TO_TCHAR unit plain_Printf true TUnlog.Default
       (MacroArgs_category TestCategory) ELogVerbosity.Log "A" []) Process_start
  = Some [EvFilter TestCategory ELogVerbosity.Log true; EvFormat "A";
          EvTargetCall Target.UELog TestCategory ELogVerbosity.Log "A"] /\
  (fun r => Trace r.2) <$>
    (run FUnlogScopedCategory_ctor CategoryA;
     FunctionName ascii_UTF8_TO_TCHAR unit plain_Printf
       (TSpecificCategory TestCategory) true
       (TUnlog.WithCategory TestCategory TUnlog.Default)
       ELogVerbosity.Log (OrderedArguments unit (char_text "A") [])) Process_start
  = Some [EvFilter TestCategory ELogVerbosity.Log true; EvFormat "A";
          EvTargetCall Target.UELog TestCategory ELogVerbosity.Log "A"] /\
  TestCategory <> LogGeneral /\ TestCategory <> CategoryA.
Proof. by split_and!. Qed.

(** C6 as stated fails: after installing settings whose default category
    is [CategoryD] and whose target list is ["MyTarget"], a call through
    the default flavor with an empty scope stack resolves to [LogGeneral]
    and is dispatched to the flavor's own target. *)
Lemma C6_settings_not_consulted :
  GetDefaultCategory (MakeSettings MySettings) = CategoryD /\
  GetTargets (MakeSettings MySettings) = ["MyTarget"] /\
  (fun r => (ScopeStack r.2, Trace r.2)) <$>
    (run ApplyRuntimeSettings MySettings;
     FunctionName ascii_UTF8_TO_TCHAR unit plain_Printf
    (TUnlog.CategoryPicker TUnlog.Default) true TUnlog.Default
       ELogVerbosity.Log (OrderedArguments unit (TCHAR_text "A") [])) Process_start
  = Some ([], [EvFilter LogGeneral ELogVerbosity.Log true; EvFormat "A";
               EvTargetCall Target.UELog LogGeneral ELogVerbosity.Log "A"]) /\
  LogGeneral <> CategoryD.
Proof. split_and!; [reflexivity | reflexivity | by vm_compute | discriminate]. Qed.

(** C8 as stated fails: with the facility enabled, a lazily-guarded call
    whose callable returns false has invoked the callable once. *)
Lemma C8_false_guard_is_invoked :
  invocations Process_start = 0 /\
  (fun r => invocations r.2) <$>
    FunctionName_LambdaCondition ascii_UTF8_TO_TCHAR unit plain_Printf
    (TUnlog.CategoryPicker TUnlog.Default) true TUnlog.Default
      ELogVerbosity.Warning (fun _ => false) (OrderedArguments unit (char_text "Y") [])
      Process_start
  = Some 1.
Proof. split; reflexivity. Qed.

(** ** Closed instances of the further properties *)


Lemma X4_program_only_appends_witness :
  exec ascii_UTF8_TO_TCHAR unit plain_Printf
    (SScope unit CategoryB
       [SLog unit (TDeriveCategory LogGeneral) TUnlog.Default ELogVerbosity.Error
          (PrintfArguments unit "X" tt)])
    (set_Logger {| Settings := None; PushedCategories := [CategoryA] |} Process_start)
  = Some (tt, add_events
                [EvFilter CategoryB ELogVerbosity.Error true; EvFormat "X";
                 EvTargetCall Target.UELog CategoryB ELogVerbosity.Error "X"]
                (set_Logger {| Settings := None; PushedCategories := [CategoryA] |}
                   Process_start)).
Proof.
  apply (X4_program_only_appends_output ascii_UTF8_TO_TCHAR unit plain_Printf
           (SScope unit CategoryB
              [SLog unit (TDeriveCategory LogGeneral) TUnlog.Default ELogVerbosity.Error
                 (PrintfArguments unit "X" tt)])
           {| Settings := None; PushedCategories := [CategoryA] |}).
  reflexivity.
Defined.

Lemma X5_named_functions_witness :
  exists p',
    Unlog_Warn ascii_UTF8_TO_TCHAR unit plain_Printf (TDeriveCategory LogGeneral) true
      TUnlog.Default (PrintfArguments unit "Y" tt) Process_start = Some (tt, p') /\
    Trace p' =
      [EvFilter LogGeneral ELogVerbosity.Warning true; EvFormat "Y";
       EvTargetCall Target.UELog LogGeneral ELogVerbosity.Warning "Y"].
Proof.
  destruct (X5_named_functions_on_declared_category ascii_UTF8_TO_TCHAR unit plain_Printf
              (TDeriveCategory LogGeneral) TUnlog.Default (PrintfArguments unit "Y" tt)
              Process_start "LogGeneral" eq_refl) as (_ & Hwarn & _).
  exact Hwarn.
Defined.

Lemma X7_Get_singleton_witness :
  exists L p1,
    Get Process_start = Some (L, p1) /\
    L = {| Settings := Some (SettingsName UnlogDefaultRuntimeSettings);
           PushedCategories := [] |} /\
    exists o,
      SettingsStatics p1 !! SettingsName UnlogDefaultRuntimeSettings = Some o /\
      GetDefaultCategory o = LogGeneral /\ GetTargets o = [].
Proof.
  destruct (X7_Get_singleton Process_start) as (L & p1 & H & _ & _ & Hnew & _).
  destruct (Hnew eq_refl) as (HL & _ & Ho).
  exists L, p1. split_and!; [exact H | exact HL | exact (Ho eq_refl)].
Defined.

Lemma X8_settings_static_witness :
  exists p1,
    Settings_Static MySettings Process_start = Some (SettingsName MySettings, p1) /\
    SettingsStatics p1 !! SettingsName MySettings = Some (MakeSettings MySettings).
Proof.
  destruct (X8_settings_static_once MySettings Process_start) as (p1 & H & _ & Hnew & _).
  exists p1. split; [exact H | exact (Hnew eq_refl)].
Defined.

Lemma X11_builders_witness :
  TUnlog.CategoryPicker
    (build TUnlog.Default
       ([] ++ BWithCategory (UNLOG_CATEGORY "TestCategory") ::
        [BWithTargets [Target.TGameScreen 10 FColor.Yellow]]))
  = TSpecificCategory (UNLOG_CATEGORY "TestCategory").
Proof.
  destruct (X11_builders_independent TUnlog.Default []) as (_ & _ & Hkeep).
  apply (Hkeep (UNLOG_CATEGORY "TestCategory")
           [BWithTargets [Target.TGameScreen 10 FColor.Yellow]]).
  reflexivity.
Defined.

Lemma X16_round_trip_witness :
  UnloggerScopedContext_dtor
    (UnloggerScopedContext_ctor true (UNLOG_CONTEXT "InEditor")).1
    (UnloggerScopedContext_ctor true (UNLOG_CONTEXT "InEditor")).2
  = Some (UNLOG_CONTEXT "InEditor").
Proof.
  apply (X16_scoped_context_round_trip true (UNLOG_CONTEXT "InEditor")).
  by vm_compute.
Defined.

Lemma X17_counter_wraps_witness :
  IsActive {| ContextName := "InEditor"; Counter := 4294967295 |} = true /\
  IsActive
    (UnloggerScopedContext_ctor true
       {| ContextName := "InEditor"; Counter := 4294967295 |}).2 = false /\
  UnloggerScopedContext_dtor
    (UnloggerScopedContext_ctor true
       {| ContextName := "InEditor"; Counter := 4294967295 |}).1
    (UnloggerScopedContext_ctor true
       {| ContextName := "InEditor"; Counter := 4294967295 |}).2 = None.
Proof.
  apply (X17_counter_wraps {| ContextName := "InEditor"; Counter := 4294967295 |}).
  reflexivity.
Defined.



Lemma X15_WhenActive_witness :
  WhenActive (IncrementCounter (UNLOG_CONTEXT "InEditor")) S 0 = 1 /\
  WhenNotActive (IncrementCounter (UNLOG_CONTEXT "InEditor")) S 0 = 0.
Proof.
  assert (rtc ContextStep (UNLOG_CONTEXT "InEditor", [])
            (IncrementCounter (UNLOG_CONTEXT "InEditor"), [] ++ [{| Value := true |}]))
    as Hreach.
  { apply rtc_once. by apply (Step_construct true). }
  destruct (X15_WhenActive_follows_guards "InEditor" _ _ Hreach ltac:(by vm_compute)
              nat S 0) as (Hactive & _).
  apply Hactive. exists {| Value := true |}. split; [apply list_elem_of_here | reflexivity].
Defined.
